(** * Weather CLI (weather.py): formatters, resolution chain and CLI driver

    A shallow embedding of [src/weather.py].  Python values coming out of
    [response.json()] are modelled by the type [json]; Python [str] values
    are kept as their UTF-8 bytes in [string]; Python [float] values are
    IEEE binary64 numbers, taken from [SpecFloat] with [prec = 53] and
    [emax = 1024].  Functions that can raise return a [result]; the
    network, standard output and standard error are threaded through a
    small state-and-exception monad. *)

From Stdlib Require Import ZArith List String Ascii Bool Lia.
From Stdlib Require Import Floats.SpecFloat.
From Stdlib Require Import Numbers.DecimalString.
Import ListNotations.

Local Open Scope string_scope.
Local Open Scope Z_scope.
Local Set Warnings "-register-all".

(** ** Python strings *)

Module PyStr.

Definition nl : string := String (ascii_of_nat 10) EmptyString.

Fixpoint repeat_str (s : string) (n : nat) : string :=
  match n with
  | O => EmptyString
  | S n' => s ++ repeat_str s n'
  end.

Fixpoint join (sep : string) (l : list string) : string :=
  match l with
  | [] => EmptyString
  | [x] => x
  | x :: r => x ++ sep ++ join sep r
  end.

Definition concat_all (l : list string) : string :=
  fold_right append EmptyString l.

Definition nonempty (s : string) : bool :=
  match s with EmptyString => false | String _ _ => true end.

(** [len(s)] counts code points: the bytes that are not UTF-8
    continuation bytes (10xxxxxx). *)
Definition is_continuation (c : ascii) : bool :=
  let n := nat_of_ascii c in (128 <=? n)%nat && (n <? 192)%nat.

Fixpoint py_len (s : string) : Z :=
  match s with
  | EmptyString => 0
  | String c r => (if is_continuation c then 0 else 1) + py_len r
  end.

(** [s.split(sep)[-1]] for a one-character ASCII separator: the text after
    the last occurrence of [sep], the whole of [s] when there is none. *)
Fixpoint split_last_from (sep : ascii) (cur : string) (s : string) : string :=
  match s with
  | EmptyString => cur
  | String c r =>
      if Ascii.eqb c sep then split_last_from sep r r
      else split_last_from sep cur r
  end.

Definition split_last (sep : ascii) (s : string) : string :=
  split_last_from sep s s.

(** Whitespace as [str.strip()] sees it: U+0009..000D, U+001C..0020,
    U+0085, U+00A0, U+1680, U+2000..200A, U+2028, U+2029, U+202F, U+205F,
    U+3000, here in their UTF-8 encodings. *)
Definition space1 (a : nat) : bool :=
  ((9 <=? a) && (a <=? 13) || (28 <=? a) && (a <=? 32))%nat.

Definition space2 (a b : nat) : bool :=
  ((a =? 194) && ((b =? 133) || (b =? 160)))%nat.

Definition space3 (a b c : nat) : bool :=
  ((a =? 225) && (b =? 154) && (c =? 128)
   || (a =? 226) && (b =? 128)
      && ((128 <=? c) && (c <=? 138) || (c =? 168) || (c =? 169) || (c =? 175))
   || (a =? 226) && (b =? 129) && (c =? 159)
   || (a =? 227) && (b =? 128) && (c =? 128))%nat.

Fixpoint lstrip (s : string) : string :=
  match s with
  | EmptyString => s
  | String a r =>
      if space1 (nat_of_ascii a) then lstrip r
      else
        match r with
        | EmptyString => s
        | String b r2 =>
            if space2 (nat_of_ascii a) (nat_of_ascii b) then lstrip r2
            else
              match r2 with
              | EmptyString => s
              | String c r3 =>
                  if space3 (nat_of_ascii a) (nat_of_ascii b) (nat_of_ascii c)
                  then lstrip r3
                  else s
              end
        end
  end.

(** The same scan on the reversed byte sequence, for the right end. *)
Fixpoint lstrip_rev (l : list ascii) : list ascii :=
  match l with
  | [] => l
  | a :: r =>
      if space1 (nat_of_ascii a) then lstrip_rev r
      else
        match r with
        | [] => l
        | b :: r2 =>
            if space2 (nat_of_ascii b) (nat_of_ascii a) then lstrip_rev r2
            else
              match r2 with
              | [] => l
              | c :: r3 =>
                  if space3 (nat_of_ascii c) (nat_of_ascii b) (nat_of_ascii a)
                  then lstrip_rev r3
                  else l
              end
        end
  end.

Definition rstrip (s : string) : string :=
  string_of_list_ascii (rev (lstrip_rev (rev (list_ascii_of_string s)))).

Definition strip (s : string) : string := rstrip (lstrip s).

(** The code points of [s], each as a one-character string: what
    iterating over a [str] yields. *)
Fixpoint code_points (s : string) : list string :=
  match s with
  | EmptyString => []
  | String c r =>
      match code_points r, r with
      | p :: ps, String d _ =>
          if is_continuation d then String c p :: ps
          else String c EmptyString :: p :: ps
      | l, _ => String c EmptyString :: l
      end
  end.

(** Decimal text of an integer, as [str(int)] gives it. *)
Definition str_of_Z (z : Z) : string := NilZero.string_of_int (Z.to_int z).

End PyStr.

Import PyStr.

(** ** Python floats: IEEE binary64 *)

Module PyFloat.

Definition float := spec_float.
Definition prec : Z := 53.
Definition emax : Z := 1024.

Definition fmul : float -> float -> float := SFmul prec emax.
Definition fdiv : float -> float -> float := SFdiv prec emax.
Definition fadd : float -> float -> float := SFadd prec emax.

(** [float(z)] for an integer: the nearest binary64, an infinity when the
    integer is out of range (where Python raises [OverflowError]). *)
Definition of_Z (z : Z) : float := binary_normalize prec emax z 0 false.

Definition finite_of_Z (z : Z) : float :=
  match z with
  | Z0 => S754_zero false
  | Zpos p => S754_finite false p 0
  | Zneg p => S754_finite true p 0
  end.

(** [a / b] for two integers: the exact quotient rounded once. *)
Definition Z_div (a b : Z) : float := fdiv (finite_of_Z a) (finite_of_Z b).

Definition is_infinite (x : float) : bool :=
  match x with S754_infinity _ => true | _ => false end.

Definition is_zero (x : float) : bool :=
  match x with S754_zero _ => true | _ => false end.

Definition same_value (x y : float) : bool :=
  match SFcompare x y with Some Eq => true | _ => false end.

(** The value [m * 2^e] as a fraction [num / den] with [den > 0]. *)
Definition frac_of (m : positive) (e : Z) : Z * Z :=
  if 0 <=? e then (Zpos m * 2 ^ e, 1) else (Zpos m, 2 ^ (- e)).

(** [num / den] rounded to the nearest integer, ties to the even one. *)
Definition round_half_even (num den : Z) : Z :=
  let q := num / den in
  let r := num mod den in
  match 2 * r ?= den with
  | Lt => q
  | Gt => q + 1
  | Eq => if Z.even q then q else q + 1
  end.

Definition pad_zeros (width : nat) (s : string) : string :=
  repeat_str "0" (width - String.length s) ++ s.

Definition sign_str (s : bool) : string := if s then "-" else "".

(** The integer [n], read as [n / 10^d], written with [d] decimals. *)
Definition fixed_digits (n : Z) (d : nat) : string :=
  let p := 10 ^ Z.of_nat d in
  str_of_Z (n / p)
  ++ match d with
     | O => ""
     | S _ => "." ++ pad_zeros d (str_of_Z (n mod p))
     end.

(** The scaled magnitude that [format(x, '.df')] prints for a finite,
    non-zero [x = m * 2^e]: [m * 2^e * 10^d] rounded half-even. *)
Definition fixed_scaled (m : positive) (e : Z) (d : nat) : Z :=
  let '(num, den) := frac_of m e in
  round_half_even (num * 10 ^ Z.of_nat d) den.

(** [format(x, '.df')] *)
Definition fmt_fixed (d : nat) (x : float) : string :=
  match x with
  | S754_nan => "nan"
  | S754_infinity s => sign_str s ++ "inf"
  | S754_zero s => sign_str s ++ fixed_digits 0 d
  | S754_finite s m e => sign_str s ++ fixed_digits (fixed_scaled m e d) d
  end.

(** *** [repr(x)]: the shortest decimal that reads back as [x] *)

Definition ge_pow10 (num den k : Z) : bool :=
  if 0 <=? k then 10 ^ k * den <=? num else den <=? num * 10 ^ (- k).

(** The [k] with [10^(k-1) <= num/den < 10^k], reached from an estimate. *)
Fixpoint find_decpt (fuel : nat) (num den k : Z) : Z :=
  match fuel with
  | O => k
  | S f =>
      if negb (ge_pow10 num den (k - 1)) then find_decpt f num den (k - 1)
      else if ge_pow10 num den k then find_decpt f num den (k + 1)
      else k
  end.

Definition decpt_of (num den : Z) : Z :=
  find_decpt 8 num den ((Z.log2 num - Z.log2 den) * 30103 / 100000).

(** The decimal [D * 10^x] read as a float, correctly rounded. *)
Definition read_decimal (D x : Z) : float :=
  if 0 <=? x then of_Z (D * 10 ^ x) else Z_div D (10 ^ (- x)).

(** Candidates with [p] significant digits around [num/den]: the floor
    [lo], and which of [lo], [lo + 1] is nearest (ties to even). *)
Definition candidates (num den k p : Z) : Z * Z :=
  let s := p - k in
  let '(N, D) := if 0 <=? s then (num * 10 ^ s, den) else (num, den * 10 ^ (- s)) in
  (N / D, round_half_even N D).

Fixpoint shortest_digits (fuel : nat) (x : float) (num den k p : Z) : Z * Z :=
  let '(lo, near) := candidates num den k p in
  match fuel with
  | O => (near, p)
  | S f =>
      let ok_lo := same_value (read_decimal lo (k - p)) x in
      let ok_hi := same_value (read_decimal (lo + 1) (k - p)) x in
      if ok_lo && ok_hi then (near, p)
      else if ok_lo then (lo, p)
      else if ok_hi then (lo + 1, p)
      else shortest_digits f x num den k (p + 1)
  end.

Fixpoint drop_trailing_zeros (l : list ascii) : list ascii :=
  match l with
  | "0"%char :: r => drop_trailing_zeros r
  | _ => l
  end.

Definition strip_zeros (s : string) : string :=
  let l := rev (drop_trailing_zeros (rev (list_ascii_of_string s))) in
  match l with [] => "0" | _ => string_of_list_ascii l end.

Definition exponent_str (x : Z) : string :=
  (if x <? 0 then "-" else "+")
  ++ (if Z.abs x <? 10 then "0" else "") ++ str_of_Z (Z.abs x).

(** Layout of the digit string [ds], read as [0.ds * 10^decpt]. *)
Definition layout_repr (ds : string) (decpt : Z) : string :=
  let n := Z.of_nat (String.length ds) in
  if (decpt <=? -4) || (16 <? decpt) then
    substring 0 1 ds
    ++ (if 1 <? n then "." ++ substring 1 (String.length ds - 1) ds else "")
    ++ "e" ++ exponent_str (decpt - 1)
  else if decpt <=? 0 then
    "0." ++ repeat_str "0" (Z.to_nat (- decpt)) ++ ds
  else if n <=? decpt then
    ds ++ repeat_str "0" (Z.to_nat (decpt - n)) ++ ".0"
  else
    substring 0 (Z.to_nat decpt) ds ++ "."
    ++ substring (Z.to_nat decpt) (String.length ds - Z.to_nat decpt) ds.

(** The digits [D], their number [p] and the decimal point [k] chosen for
    [m * 2^e]: the decimal printed is [D * 10^(k - p)]. *)
Definition repr_digits (m : positive) (e : Z) : Z * Z * Z :=
  let '(num, den) := frac_of m e in
  let k := decpt_of num den in
  let '(D, p) := shortest_digits 16 (S754_finite false m e) num den k 1 in
  (D, p, k).

Definition repr_finite (m : positive) (e : Z) : string :=
  let '(D, p, k) := repr_digits m e in
  let all := str_of_Z D in
  layout_repr (strip_zeros all) (k + (Z.of_nat (String.length all) - p)).

(** [repr(x)], which is also [str(x)] *)
Definition repr (x : float) : string :=
  match x with
  | S754_nan => "nan"
  | S754_infinity s => sign_str s ++ "inf"
  | S754_zero s => sign_str s ++ "0.0"
  | S754_finite s m e => sign_str s ++ repr_finite m e
  end.

End PyFloat.

Import PyFloat.

(** ** Python values, exceptions and the primitives the program uses *)

(** The value [response.json()] returns; [JNull] is Python's [None].  A
    [dict] keeps its items in insertion order, the first binding of a key
    being the one [get] sees. *)
Inductive json : Type :=
| JNull
| JBool (b : bool)
| JInt (z : Z)
| JFloat (x : float)
| JStr (s : string)
| JList (l : list json)
| JObj (kv : list (string * json)).

Inductive exn : Type :=
| RequestException (msg : string)
| AttributeError
| TypeError
| ValueError
| OverflowError
| ZeroDivisionError
| KeyError
| RecursionError
| SystemExit (code : Z).

Inductive result (A : Type) : Type :=
| Ok (a : A)
| Raise (e : exn).

Arguments Ok {A} a.
Arguments Raise {A} e.

Definition bind {A B : Type} (c : result A) (k : A -> result B) : result B :=
  match c with
  | Ok a => k a
  | Raise e => Raise e
  end.

Notation "x <- c ;; k" := (bind c (fun x => k))
  (at level 61, c at next level, right associativity).

Fixpoint mapM {A B : Type} (f : A -> result B) (l : list A) : result (list B) :=
  match l with
  | [] => Ok []
  | a :: r => b <- f a ;; bs <- mapM f r ;; Ok (b :: bs)
  end.

(** [for x in l: acc = body(acc, x)] *)
Fixpoint for_each {A S : Type} (body : S -> A -> result S) (l : list A) (acc : S)
  : result S :=
  match l with
  | [] => Ok acc
  | a :: r => acc' <- body acc a ;; for_each body r acc'
  end.

Fixpoint lookup (k : string) (kv : list (string * json)) : option json :=
  match kv with
  | [] => None
  | (k', v) :: r => if String.eqb k k' then Some v else lookup k r
  end.

(** [o.get(k, d)]: only a [dict] has the method. *)
Definition py_get (o : json) (k : string) (d : json) : result json :=
  match o with
  | JObj kv => Ok (match lookup k kv with Some v => v | None => d end)
  | _ => Raise AttributeError
  end.

(** [s.split(sep)[-1]]: only a [str] has the method. *)
Definition py_split_last (v : json) (sep : ascii) : result string :=
  match v with
  | JStr s => Ok (split_last sep s)
  | _ => Raise AttributeError
  end.

Definition is_none (v : json) : bool :=
  match v with JNull => true | _ => false end.

(** Truth value of an object, as [if v:] tests it. *)
Definition py_truthy (v : json) : bool :=
  match v with
  | JNull => false
  | JBool b => b
  | JInt z => negb (z =? 0)
  | JFloat x => negb (is_zero x)
  | JStr s => nonempty s
  | JList l => match l with [] => false | _ => true end
  | JObj kv => match kv with [] => false | _ => true end
  end.

(** [len(v)] *)
Definition py_len_of (v : json) : result Z :=
  match v with
  | JStr s => Ok (py_len s)
  | JList l => Ok (Z.of_nat (List.length l))
  | JObj kv => Ok (Z.of_nat (List.length kv))
  | _ => Raise TypeError
  end.

(** *** Numbers *)

Inductive num : Type :=
| NInt (z : Z)
| NFloat (x : float).

(** The operand of an arithmetic expression.  [bool] is a subclass of
    [int].  Every other value ends the expressions of this program
    ([v * 9 / 5 + 32], [v / 100], [v / 1609.34]) in a [TypeError]: at the
    product for [None] and a [dict], at the division for a [str] or a
    [list]. *)
Definition as_num (v : json) : result num :=
  match v with
  | JInt z => Ok (NInt z)
  | JBool b => Ok (NInt (if b then 1 else 0))
  | JFloat x => Ok (NFloat x)
  | _ => Raise TypeError
  end.

Definition int_to_float (z : Z) : result float :=
  let x := of_Z z in
  if is_infinite x then Raise OverflowError else Ok x.

Definition num_to_float (n : num) : result float :=
  match n with
  | NInt z => int_to_float z
  | NFloat x => Ok x
  end.

Definition num_mul (a b : num) : result num :=
  match a, b with
  | NInt x, NInt y => Ok (NInt (x * y))
  | _, _ => x <- num_to_float a ;; y <- num_to_float b ;; Ok (NFloat (fmul x y))
  end.

Definition num_add (a b : num) : result num :=
  match a, b with
  | NInt x, NInt y => Ok (NInt (x + y))
  | _, _ => x <- num_to_float a ;; y <- num_to_float b ;; Ok (NFloat (fadd x y))
  end.

(** True division [a / b]. *)
Definition num_truediv (a b : num) : result num :=
  match a, b with
  | NInt x, NInt y =>
      if y =? 0 then Raise ZeroDivisionError
      else
        let q := Z_div x y in
        if is_infinite q then Raise OverflowError else Ok (NFloat q)
  | _, _ =>
      x <- num_to_float a ;;
      y <- num_to_float b ;;
      if is_zero y then Raise ZeroDivisionError else Ok (NFloat (fdiv x y))
  end.

(** [format(n, '.df')] for a number *)
Definition num_format_f (d : nat) (n : num) : result string :=
  x <- num_to_float n ;; Ok (fmt_fixed d x).

(** [format(v, '.df')]: a [str] rejects the format code with a
    [ValueError], the other non-numbers reject any format string. *)
Definition py_format_f (d : nat) (v : json) : result string :=
  match v with
  | JInt z => num_format_f d (NInt z)
  | JBool b => num_format_f d (NInt (if b then 1 else 0))
  | JFloat x => num_format_f d (NFloat x)
  | JStr _ => Raise ValueError
  | _ => Raise TypeError
  end.

(** [(v * 9/5) + 32] *)
Definition to_fahrenheit (v : json) : result num :=
  c <- as_num v ;;
  a <- num_mul c (NInt 9) ;;
  b <- num_truediv a (NInt 5) ;;
  num_add b (NInt 32).

(** The literal [1609.34] *)
Definition meters_per_mile : float := Z_div 160934 100.

(** ** The renderers *)

Section Renderers.

(** [repr] of a [str] (quoting and escaping, which depend on the Unicode
    tables of the interpreter); it is reached only when a [list] or a
    [dict] is interpolated into an f-string. *)
Variable repr_str : string -> string.

Fixpoint py_repr (v : json) : string :=
  match v with
  | JNull => "None"
  | JBool b => if b then "True" else "False"
  | JInt z => str_of_Z z
  | JFloat x => repr x
  | JStr s => repr_str s
  | JList l => "[" ++ join ", " (map py_repr l) ++ "]"
  | JObj kv =>
      "{" ++ join ", " (map (fun p => repr_str (fst p) ++ ": " ++ py_repr (snd p)) kv)
      ++ "}"
  end.

(** [str(v)], which is what [f"{v}"] interpolates *)
Definition py_str (v : json) : string :=
  match v with
  | JStr s => s
  | _ => py_repr v
  end.

(** [v[:n]]: a [list] or a [str] can be sliced; a number or [None] is not
    subscriptable and a [dict] rejects the slice as a key (with a
    [TypeError] up to Python 3.11). *)
Definition py_take (n : nat) (v : json) : result json :=
  match v with
  | JList l => Ok (JList (firstn n l))
  | JStr s => Ok (JStr (concat_all (firstn n (code_points s))))
  | _ => Raise TypeError
  end.

(** [v[i]] where [len(v) > i] is known: an element of a [list], a code
    point of a [str]; a [dict] from JSON has no integer key. *)
Definition py_index (v : json) (i : nat) : result json :=
  match v with
  | JList l => Ok (nth i l JNull)
  | JStr s => Ok (JStr (nth i (code_points s) EmptyString))
  | JObj _ => Raise KeyError
  | _ => Raise TypeError
  end.

(** The items [for x in v] runs over. *)
Definition py_iter (v : json) : result (list json) :=
  match v with
  | JList l => Ok l
  | JStr s => Ok (map JStr (code_points s))
  | JObj kv => Ok (map (fun p => JStr (fst p)) kv)
  | _ => Raise TypeError
  end.

(** [properties.get(name, {}).get('value')] *)
Definition field_value (properties : json) (name : string) : result json :=
  field <- py_get properties name (JObj []) ;;
  py_get field "value" JNull.

(** weather.py, lines 104-115 *)
Definition temperature_str (properties : json) : result string :=
  temp <- py_get properties "temperature" (JObj []) ;;
  temp_value <- py_get temp "value" JNull ;;
  unit_code <- py_get temp "unitCode" (JStr "") ;;
  temp_unit <- py_split_last unit_code ":" ;;
  if negb (is_none temp_value) && String.eqb temp_unit "degC" then
    temp_f <- to_fahrenheit temp_value ;;
    sf <- num_format_f 1 temp_f ;;
    sc <- py_format_f 1 temp_value ;;
    Ok (sf ++ "°F (" ++ sc ++ "°C)")
  else if negb (is_none temp_value) then
    sv <- py_format_f 1 temp_value ;;
    Ok (sv ++ "°" ++ temp_unit)
  else Ok "N/A".

(** lines 120-127 *)
Definition wind_str (properties : json) : result string :=
  wind_speed <- field_value properties "windSpeed" ;;
  wind_dir <- field_value properties "windDirection" ;;
  if negb (is_none wind_speed) && negb (is_none wind_dir) then
    ss <- py_format_f 1 wind_speed ;;
    Ok (ss ++ " km/h from " ++ py_str wind_dir ++ "°")
  else Ok "N/A".

(** lines 129-131 *)
Definition humidity_str (properties : json) : result string :=
  humidity <- field_value properties "relativeHumidity" ;;
  if negb (is_none humidity) then
    sh <- py_format_f 0 humidity ;; Ok (sh ++ "%")
  else Ok "N/A".

(** lines 133-139 *)
Definition dewpoint_str (properties : json) : result string :=
  dewpoint <- field_value properties "dewpoint" ;;
  if negb (is_none dewpoint) then
    dewpoint_f <- to_fahrenheit dewpoint ;;
    sf <- num_format_f 1 dewpoint_f ;;
    sc <- py_format_f 1 dewpoint ;;
    Ok (sf ++ "°F (" ++ sc ++ "°C)")
  else Ok "N/A".

(** lines 141-147 *)
Definition pressure_str (properties : json) : result string :=
  pressure <- field_value properties "barometricPressure" ;;
  if negb (is_none pressure) then
    p <- as_num pressure ;;
    pressure_mb <- num_truediv p (NInt 100) ;;
    sp <- num_format_f 1 pressure_mb ;;
    Ok (sp ++ " mb")
  else Ok "N/A".

(** lines 149-155 *)
Definition visibility_str (properties : json) : result string :=
  visibility <- field_value properties "visibility" ;;
  if negb (is_none visibility) then
    v <- as_num visibility ;;
    visibility_mi <- num_truediv v (NFloat meters_per_mile) ;;
    sv <- num_format_f 1 visibility_mi ;;
    Ok (sv ++ " mi")
  else Ok "N/A".

(** lines 157-167: [None] when neither value is there *)
Definition feels_like (properties : json) : result (option string) :=
  wind_chill <- field_value properties "windChill" ;;
  heat_index <- field_value properties "heatIndex" ;;
  if negb (is_none wind_chill) then
    wind_chill_f <- to_fahrenheit wind_chill ;;
    sf <- num_format_f 1 wind_chill_f ;;
    Ok (Some (sf ++ "°F (Wind Chill)"))
  else if negb (is_none heat_index) then
    heat_index_f <- to_fahrenheit heat_index ;;
    sf <- num_format_f 1 heat_index_f ;;
    Ok (Some (sf ++ "°F (Heat Index)"))
  else Ok None.

(** One element of the comprehension of lines 172-173 *)
Definition cloud_layer_str (layer : json) : result string :=
  amount <- py_get layer "amount" (JStr "N/A") ;;
  base <- py_get layer "base" (JObj []) ;;
  height <- py_get base "value" (JStr "N/A") ;;
  Ok (py_str amount ++ " at " ++ py_str height ++ "m").

(** lines 169-175 *)
Definition cloud_str (properties : json) : result string :=
  cloud_layers <- py_get properties "cloudLayers" (JList []) ;;
  if py_truthy cloud_layers then
    layers <- py_iter cloud_layers ;;
    parts <- mapM cloud_layer_str layers ;;
    Ok (join ", " parts)
  else Ok "N/A".

(** lines 177-182 *)
Definition precip_str (properties : json) : result string :=
  precip_last_hour <- field_value properties "precipitationLastHour" ;;
  if negb (is_none precip_last_hour) then
    sp <- py_format_f 2 precip_last_hour ;; Ok (sp ++ " mm")
  else Ok "N/A".

(** lines 184-189: the f-string that opens the block *)
Definition observation_head (station timestamp description temp_s : string)
  : string :=
  nl ++ "Current Weather for " ++ station ++ nl
  ++ repeat_str "=" 40 ++ nl
  ++ "Time: " ++ timestamp ++ nl
  ++ "Conditions: " ++ description ++ nl
  ++ "Temperature: " ++ temp_s.

(** lines 194-202: the f-string that closes it *)
Definition observation_tail
  (dewpoint_s wind_s humidity_s pressure_s visibility_s cloud_s precip_s : string)
  : string :=
  nl ++ "Dewpoint: " ++ dewpoint_s ++ nl
  ++ "Wind: " ++ wind_s ++ nl
  ++ "Humidity: " ++ humidity_s ++ nl
  ++ "Pressure: " ++ pressure_s ++ nl
  ++ "Visibility: " ++ visibility_s ++ nl
  ++ "Cloud Layers: " ++ cloud_s ++ nl
  ++ "Precipitation (last hour): " ++ precip_s ++ nl.

(** lines 184-202: the text block before [strip()] *)
Definition observation_text
  (station timestamp description temp_s : string) (feels_like_str : option string)
  (dewpoint_s wind_s humidity_s pressure_s visibility_s cloud_s precip_s : string)
  : string :=
  let output := observation_head station timestamp description temp_s in
  let output :=
    match feels_like_str with
    | Some s => if nonempty s then output ++ (nl ++ "Feels Like: " ++ s) else output
    | None => output
    end in
  output
  ++ observation_tail dewpoint_s wind_s humidity_s pressure_s visibility_s
       cloud_s precip_s.

Definition format_current_weather (data : json) : result string :=
  properties <- py_get data "properties" (JObj []) ;;
  station_ref <- py_get properties "station" (JStr "Unknown") ;;
  station <- py_split_last station_ref "/" ;;
  timestamp <- py_get properties "timestamp" (JStr "Unknown") ;;
  temp_s <- temperature_str properties ;;
  description <- py_get properties "textDescription" (JStr "N/A") ;;
  wind_s <- wind_str properties ;;
  humidity_s <- humidity_str properties ;;
  dewpoint_s <- dewpoint_str properties ;;
  pressure_s <- pressure_str properties ;;
  visibility_s <- visibility_str properties ;;
  feels_like_str <- feels_like properties ;;
  cloud_s <- cloud_str properties ;;
  precip_s <- precip_str properties ;;
  Ok (strip (observation_text station (py_str timestamp) (py_str description)
               temp_s feels_like_str dewpoint_s wind_s humidity_s pressure_s
               visibility_s cloud_s precip_s)).

(** The body of the loop of lines 219-231 *)
Definition append_period (output : string) (period : json) : result string :=
  name <- py_get period "name" (JStr "Unknown") ;;
  temp <- py_get period "temperature" (JStr "N/A") ;;
  temp_unit <- py_get period "temperatureUnit" (JStr "F") ;;
  short_forecast <- py_get period "shortForecast" (JStr "N/A") ;;
  detailed <- py_get period "detailedForecast" (JStr "") ;;
  let output := output ++ (py_str name ++ ":" ++ nl) in
  let output :=
    output ++ ("  Temperature: " ++ py_str temp ++ "°" ++ py_str temp_unit ++ nl) in
  let output := output ++ ("  " ++ py_str short_forecast ++ nl) in
  let output :=
    if py_truthy detailed then output ++ ("  " ++ py_str detailed ++ nl)
    else output in
  Ok (output ++ nl).

Definition no_forecast : string := "No forecast data available".

Definition format_forecast (data : json) : result string :=
  properties <- py_get data "properties" (JObj []) ;;
  periods <- py_get properties "periods" (JList []) ;;
  if negb (py_truthy periods) then Ok no_forecast
  else
    let output := nl ++ "Weather Forecast" ++ nl in
    let output := output ++ (repeat_str "=" 40 ++ nl ++ nl) in
    shown <- py_take 14 periods ;;
    items <- py_iter shown ;;
    output <- for_each append_period items output ;;
    Ok (strip output).

End Renderers.

(** ** The network, the two output streams and the process *)

(** What one call of [requests.get(...)], [raise_for_status()] and
    [json()] comes to: a [RequestException] with its message, the decoded
    body, or an exception of [json()] that is no [RequestException]: the
    [ValueError] of a body that is not JSON (where the installed [requests]
    raises it as such; where it raises its own [JSONDecodeError], a
    [RequestException], the answer is a [RespError]), or the
    [RecursionError] of a body nested too deep. *)
Inductive response : Type :=
| RespError (msg : string)
| RespJson (doc : json)
| RespValueError
| RespRecursionError.

(** What [parser.parse_args()] comes to on the command line of a run: the
    namespace with [args.location] and [args.forecast]; for [-h] or
    [--help], the help text; for a command line the parser rejects (no
    [-l], [-l] without a value, an argument it does not know), the usage
    line and the error message.  The texts are those [argparse] writes. *)
Inductive parsed : Type :=
| Namespace (location : string) (forecast : bool)
| HelpRequested (help : string)
| UsageError (usage message : string).

Inductive event : Type :=
| EvGet (url : string) (headers : list (string * string)) (timeout : Z)
| EvStdout (text : string)
| EvStderr (text : string)
| EvTraceback (e : exn).

(** The log of a run, oldest event first: the requests sent, the texts
    written on standard output and on standard error, and the traceback of
    an exception that nothing caught. *)
Definition log := list event.

Definition io (A : Type) : Type := log -> result A * log.

Definition io_ret {A : Type} (a : A) : io A := fun w => (Ok a, w).

Definition io_raise {A : Type} (e : exn) : io A := fun w => (Raise e, w).

Definition io_bind {A B : Type} (c : io A) (k : A -> io B) : io B :=
  fun w =>
    match c w with
    | (Ok a, w') => k a w'
    | (Raise e, w') => (Raise e, w')
    end.

Definition lift {A : Type} (r : result A) : io A := fun w => (r, w).

Notation "x <~ c ;; k" := (io_bind c (fun x => k))
  (at level 61, c at next level, right associativity).

Definition print_stdout (text : string) : io unit :=
  fun w => (Ok tt, (w ++ [EvStdout text])%list).

Definition print_stderr (text : string) : io unit :=
  fun w => (Ok tt, (w ++ [EvStderr text])%list).

(** [try: body  except RequestException as e: handler(str(e))] *)
Definition try_except_request {A : Type} (body : io A) (handler : string -> io A)
  : io A :=
  fun w =>
    match body w with
    | (Raise (RequestException msg), w') => handler msg w'
    | r => r
    end.

Definition requests_of (w : log) : list string :=
  flat_map (fun e => match e with EvGet url _ _ => [url] | _ => [] end) w.

Definition stdout_of (w : log) : list string :=
  flat_map (fun e => match e with EvStdout t => [t] | _ => [] end) w.

Definition stderr_of (w : log) : list string :=
  flat_map (fun e => match e with EvStderr t => [t] | _ => [] end) w.

Section Program.

(** [str.upper] and [repr] of a [str] belong to the interpreter and follow
    its Unicode tables; the service answers the [n]-th request of a run,
    made to [url], with [net n url]. *)
Variable str_upper : string -> string.
Variable repr_str : string -> string.
Variable net : nat -> string -> response.

Definition BASE_URL : string := "https://api.weather.gov".

Record WeatherClient : Type := {
  station_code : string;
  headers : list (string * string)
}.

(** [WeatherClient.__init__] *)
Definition new_client (code : string) : WeatherClient :=
  {| station_code := str_upper code;
     headers := [("User-Agent", "(Weather CLI Tool, contact@example.com)");
                 ("Accept", "application/json")] |}.

(** [requests.get(url, headers=self.headers, timeout=10)], then
    [raise_for_status()] and [json()] *)
Definition fetch_json (self : WeatherClient) (url : string) : io json :=
  fun w =>
    let w' := (w ++ [EvGet url (headers self) 10])%list in
    match net (List.length (requests_of w)) url with
    | RespError msg => (Raise (RequestException msg), w')
    | RespJson doc => (Ok doc, w')
    | RespValueError => (Raise ValueError, w')
    | RespRecursionError => (Raise RecursionError, w')
    end.

Definition observation_url (self : WeatherClient) : string :=
  BASE_URL ++ "/stations/" ++ station_code self ++ "/observations/latest".

Definition station_url (self : WeatherClient) : string :=
  BASE_URL ++ "/stations/" ++ station_code self.

Definition points_url (lat lon : json) : string :=
  BASE_URL ++ "/points/" ++ py_str repr_str lat ++ "," ++ py_str repr_str lon.

Definition get_current_weather (self : WeatherClient) : io json :=
  let url := observation_url self in
  try_except_request
    (fetch_json self url)
    (fun e =>
       _ <~ print_stderr ("Error fetching current weather: " ++ e) ;;
       io_ret JNull).

(** [station_data.get('geometry', {}).get('coordinates', [])] *)
Definition station_coordinates (station_data : json) : result json :=
  geometry <- py_get station_data "geometry" (JObj []) ;;
  py_get geometry "coordinates" (JList []).

Definition get_forecast (self : WeatherClient) : io json :=
  try_except_request
    (station_data <~ fetch_json self (station_url self) ;;
     coordinates <~ lift (station_coordinates station_data) ;;
     n <~ lift (py_len_of coordinates) ;;
     if n <? 2 then
       _ <~ print_stderr "Error: Could not determine station coordinates" ;;
       io_ret JNull
     else
       lon <~ lift (py_index coordinates 0) ;;
       lat <~ lift (py_index coordinates 1) ;;
       points_data <~ fetch_json self (points_url lat lon) ;;
       properties <~ lift (py_get points_data "properties" (JObj [])) ;;
       forecast_url <~ lift (py_get properties "forecast" JNull) ;;
       if negb (py_truthy forecast_url) then
         _ <~ print_stderr "Error: Could not determine forecast URL" ;;
         io_ret JNull
       else
         fetch_json self (py_str repr_str forecast_url))
    (fun e =>
       _ <~ print_stderr ("Error fetching forecast: " ++ e) ;;
       io_ret JNull).

Definition length_error (location : string) : string :=
  "Error: Station code must be 4 characters (got '" ++ location ++ "')".

(** [parser.parse_args()]: the help goes to standard output and ends the
    program with status 0, a rejected command line is reported on standard
    error and ends it with status 2. *)
Definition parse_args (args : parsed) : io (string * bool) :=
  match args with
  | Namespace location forecast => io_ret (location, forecast)
  | HelpRequested help =>
      _ <~ print_stdout help ;;
      io_raise (SystemExit 0)
  | UsageError usage message =>
      _ <~ print_stderr usage ;;
      _ <~ print_stderr message ;;
      io_raise (SystemExit 2)
  end.

(** [main]: the parser built in its first lines is run on the command
    line, then the station code is checked, the client created, and the
    document of the chosen mode fetched and rendered. *)
Definition main (args : parsed) : io unit :=
  a <~ parse_args args ;;
  let location := fst a in
  let forecast := snd a in
  if negb (py_len location =? 4) then
    _ <~ print_stderr (length_error location) ;;
    io_raise (SystemExit 1)
  else
    let client := new_client location in
    if forecast then
      data <~ get_forecast client ;;
      if py_truthy data then
        text <~ lift (format_forecast repr_str data) ;;
        print_stdout text
      else io_raise (SystemExit 1)
    else
      data <~ get_current_weather client ;;
      if py_truthy data then
        text <~ lift (format_current_weather repr_str data) ;;
        print_stdout text
      else io_raise (SystemExit 1).

(** The process: exit status and log.  [SystemExit] carries the status; any
    other exception that reaches the top leaves a traceback and status 1. *)
Definition run (args : parsed) : Z * log :=
  match main args [] with
  | (Ok _, w) => (0, w)
  | (Raise (SystemExit code), w) => (code, w)
  | (Raise e, w) => (1, (w ++ [EvTraceback e])%list)
  end.

End Program.

(** * Specification vocabulary *)

Section Specification.

Variable repr_str : string -> string.

(** [data.get('properties', {}).get('periods', [])] *)
Definition forecast_periods (data : json) : result json :=
  properties <- py_get data "properties" (JObj []) ;;
  py_get properties "periods" (JList []).

Definition forecast_header : string :=
  nl ++ "Weather Forecast" ++ nl ++ repeat_str "=" 40 ++ nl ++ nl.

(** The lines of one period as section 4.4 of the specification lists
    them: name line, indented temperature line, indented short summary,
    the detailed summary when there is one, and a blank line. *)
Definition period_block (period : json) : result string :=
  name <- py_get period "name" (JStr "Unknown") ;;
  temp <- py_get period "temperature" (JStr "N/A") ;;
  temp_unit <- py_get period "temperatureUnit" (JStr "F") ;;
  short_forecast <- py_get period "shortForecast" (JStr "N/A") ;;
  detailed <- py_get period "detailedForecast" (JStr "") ;;
  Ok (py_str repr_str name ++ ":" ++ nl
      ++ "  Temperature: " ++ py_str repr_str temp ++ "°" ++ py_str repr_str temp_unit ++ nl
      ++ "  " ++ py_str repr_str short_forecast ++ nl
      ++ (if py_truthy detailed then "  " ++ py_str repr_str detailed ++ nl else "")
      ++ nl).

(** The header followed by the blocks of [ps], one after the other. *)
Definition rendered_periods (ps : list json) : result string :=
  blocks <- mapM period_block ps ;;
  Ok (strip (forecast_header ++ concat_all blocks)).

Definition is_dict (v : json) : bool :=
  match v with JObj _ => true | _ => false end.

(** [text] is what the renderer shows for key [k] of a period: the value
    of the key when the period has it, [default] when it has not. *)
Definition shown_field (fields : list (string * json)) (k default text : string)
  : Prop :=
  match lookup k fields with
  | Some v => text = py_str repr_str v
  | None => text = default
  end.

(** [block] is the block of [period], each missing field replaced by its
    default. *)
Definition shows_defaults (period : json) (block : string) : Prop :=
  exists fields name temp temp_unit short_forecast rest,
    period = JObj fields
    /\ block = name ++ ":" ++ nl
               ++ "  Temperature: " ++ temp ++ "°" ++ temp_unit ++ nl
               ++ "  " ++ short_forecast ++ nl ++ rest
    /\ shown_field fields "name" "Unknown" name
    /\ shown_field fields "temperature" "N/A" temp
    /\ shown_field fields "temperatureUnit" "F" temp_unit
    /\ shown_field fields "shortForecast" "N/A" short_forecast
    /\ (lookup "temperature" fields = None ->
        lookup "temperatureUnit" fields = None ->
        block = name ++ ":" ++ nl ++ "  Temperature: N/A°F" ++ nl
                ++ "  " ++ short_forecast ++ nl ++ rest).

End Specification.

(** A computation that writes nothing to standard output. *)
Definition quiet {A : Type} (c : io A) : Prop :=
  forall w r w', c w = (r, w') -> stdout_of w' = stdout_of w.

(** ** Sample data *)

Definition sample_forecast (ps : list json) : json :=
  JObj [("properties", JObj [("periods", JList ps)])].

Definition sample_periods : list json :=
  [JObj [];
   JObj [("name", JStr "Tonight"); ("temperature", JInt 54);
         ("detailedForecast", JStr "Cloudy.")]].

(** A record as the service sends it; the dewpoint carries a Fahrenheit
    unit code. *)
Definition sample_properties : json :=
  JObj [("station", JStr "https://api.weather.gov/stations/KMPR");
        ("timestamp", JStr "2024-01-01T00:00:00+00:00");
        ("textDescription", JStr "Clear");
        ("temperature", JObj [("unitCode", JStr "wmoUnit:degC"); ("value", JInt 0)]);
        ("dewpoint", JObj [("unitCode", JStr "wmoUnit:degF"); ("value", JInt 50)]);
        ("windSpeed", JObj [("value", JFloat (Z_div 185 10))]);
        ("windDirection", JObj [("value", JInt 270)]);
        ("barometricPressure", JObj [("value", JInt 101325)]);
        ("visibility", JObj [("value", JFloat (Z_div 160934 10))]);
        ("windChill", JObj [("value", JInt (-5))]);
        ("heatIndex", JObj [("value", JInt 30)]);
        ("cloudLayers",
         JList [JObj [("amount", JStr "FEW"); ("base", JObj [("value", JInt 1200)])]])].

Definition sample_observation : json := JObj [("properties", sample_properties)].

Definition sample_text : string :=
  "Current Weather for KMPR" ++ nl
  ++ repeat_str "=" 40 ++ nl
  ++ "Time: 2024-01-01T00:00:00+00:00" ++ nl
  ++ "Conditions: Clear" ++ nl
  ++ "Temperature: 32.0°F (0.0°C)" ++ nl
  ++ "Feels Like: 23.0°F (Wind Chill)" ++ nl
  ++ "Dewpoint: 122.0°F (50.0°C)" ++ nl
  ++ "Wind: 18.5 km/h from 270°" ++ nl
  ++ "Humidity: N/A" ++ nl
  ++ "Pressure: 1013.2 mb" ++ nl
  ++ "Visibility: 10.0 mi" ++ nl
  ++ "Cloud Layers: FEW at 1200m" ++ nl
  ++ "Precipitation (last hour): N/A".

(** A service that answers every request with an empty object, and one
    that knows a station, its grid point and its forecast. *)
Definition empty_service (n : nat) (url : string) : response := RespJson (JObj []).

Definition sample_service (n : nat) (url : string) : response :=
  match n with
  | O =>
      RespJson
        (JObj [("geometry",
                JObj [("type", JStr "Point");
                      ("coordinates",
                       JList [JFloat (Z_div (-12185) 100); JFloat (Z_div 3658 100)])])])
  | 1%nat =>
      RespJson
        (JObj [("properties",
                JObj [("forecast",
                       JStr "https://api.weather.gov/gridpoints/MTR/93,58/forecast")])])
  | _ => RespJson (sample_forecast sample_periods)
  end.

(** A service whose station metadata is a feature without a location: its
    geometry is JSON null. *)
Definition null_geometry_service (n : nat) (url : string) : response :=
  RespJson (JObj [("geometry", JNull)]).

(** ** Vocabulary for the resolution chain and the driver *)

(** A request carries the client's fixed headers and the timeout of 10. *)
Definition fixed_request (self : WeatherClient) (e : event) : Prop :=
  match e with
  | EvGet _ h t => h = headers self /\ t = 10
  | _ => True
  end.

(** An exception of the interpreter itself, as the pure helpers raise:
    neither a [RequestException] nor a [SystemExit]. *)
Definition plain_exn (e : exn) : Prop :=
  match e with
  | RequestException _ | SystemExit _ => False
  | _ => True
  end.

Definition raises_plain {A : Type} (r : result A) : Prop :=
  match r with
  | Raise e => plain_exn e
  | Ok _ => True
  end.

(** A service whose every request fails at the transport level. *)
Definition failing_service (n : nat) (url : string) : response :=
  RespError "timed out".

(** A service that knows the station and its grid point, the grid point
    having no forecast reference. *)
Definition no_forecast_service (n : nat) (url : string) : response :=
  match n with
  | O => sample_service O url
  | _ => RespJson (JObj [("properties", JObj [("forecast", JNull)])])
  end.

(** A service whose every answer has a body that is not JSON, read by a
    [requests] whose [json()] raises a plain [ValueError]. *)
Definition undecodable_service (n : nat) (url : string) : response :=
  RespValueError.

(** A service that answers every request with a JSON list. *)
Definition list_service (n : nat) (url : string) : response :=
  RespJson (JList [JInt 1]).

(** A service that answers every request with the sample observation. *)
Definition observation_service (n : nat) (url : string) : response :=
  RespJson sample_observation.

(** ** Vocabulary for the layout of the renderings *)

(** An ASCII character that [strip()] does not take for whitespace. *)
Definition is_plain_char (c : ascii) : bool :=
  (nat_of_ascii c <? 128)%nat && negb (space1 (nat_of_ascii c)).

(** The character [c] does not occur in [s]. *)
Definition char_free (c : ascii) (s : string) : Prop :=
  ~ In c (list_ascii_of_string s).

(** The lines of a rendered observation, in their order, without the
    newline that opens the block and the one that closes it. *)
Definition observation_lines
  (station timestamp description temp_s : string) (feels_like_str : option string)
  (dewpoint_s wind_s humidity_s pressure_s visibility_s cloud_s precip_s : string)
  : string :=
  "Current Weather for " ++ station ++ nl
  ++ repeat_str "=" 40 ++ nl
  ++ "Time: " ++ timestamp ++ nl
  ++ "Conditions: " ++ description ++ nl
  ++ "Temperature: " ++ temp_s
  ++ match feels_like_str with
     | Some s => nl ++ "Feels Like: " ++ s
     | None => ""
     end
  ++ nl ++ "Dewpoint: " ++ dewpoint_s
  ++ nl ++ "Wind: " ++ wind_s
  ++ nl ++ "Humidity: " ++ humidity_s
  ++ nl ++ "Pressure: " ++ pressure_s
  ++ nl ++ "Visibility: " ++ visibility_s
  ++ nl ++ "Cloud Layers: " ++ cloud_s
  ++ nl ++ "Precipitation (last hour): " ++ precip_s.

Definition sample_forecast_text : string :=
  "Weather Forecast" ++ nl ++ repeat_str "=" 40 ++ nl ++ nl
  ++ "Unknown:" ++ nl ++ "  Temperature: N/A°F" ++ nl ++ "  N/A" ++ nl ++ nl
  ++ "Tonight:" ++ nl ++ "  Temperature: 54°F" ++ nl ++ "  N/A" ++ nl
  ++ "  Cloudy.".

(** ** Vocabulary for the numbers shown *)

(** The decimal text of [n / 10]: sign, integer part, one decimal. *)
Definition tenths_text (n : Z) : string :=
  (if n <? 0 then "-" else "")
  ++ str_of_Z (Z.abs n / 10) ++ "." ++ str_of_Z (Z.abs n mod 10).

(** [f] holds on the [n] integers from [lo] on. *)
Fixpoint all_from (f : Z -> bool) (lo : Z) (n : nat) : bool :=
  match n with
  | O => true
  | S k => f lo && all_from f (lo + 1) k
  end.

(** The Fahrenheit text computed for the integer [c] is the exact value
    of [9c/5 + 32]. *)
Definition fahrenheit_exact (c : Z) : bool :=
  match (f <- to_fahrenheit (JInt c) ;; num_format_f 1 f) with
  | Ok s => String.eqb s (tenths_text (18 * c + 320))
  | Raise _ => false
  end.

(** The one-decimal text of the integer [c] is [c] followed by ".0". *)
Definition int_one_decimal (c : Z) : bool :=
  match py_format_f 1 (JInt c) with
  | Ok s => String.eqb s (str_of_Z c ++ ".0")
  | Raise _ => false
  end.

(** ** Vocabulary for well-formed observations *)

(** A measurement value the formatters take: [None], a [float], or an
    [int] (a [bool] is one) of magnitude at most [10^300]. *)
Definition number_ok (v : json) : bool :=
  match v with
  | JNull | JFloat _ | JBool _ => true
  | JInt z => Z.abs z <=? 10 ^ 300
  | _ => false
  end.

(** The key is missing, or holds a [str]. *)
Definition absent_or_str (o : option json) : bool :=
  match o with
  | None | Some (JStr _) => true
  | _ => false
  end.

(** The measurement [k] is missing, or an object whose "value" is missing
    or satisfies [ok]. *)
Definition field_ok (ok : json -> bool) (kv : list (string * json)) (k : string)
  : bool :=
  match lookup k kv with
  | None => true
  | Some (JObj f) =>
      match lookup "value" f with
      | None => true
      | Some v => ok v
      end
  | Some _ => false
  end.

(** A cloud layer: an object whose "base" is missing or an object. *)
Definition layer_ok (layer : json) : bool :=
  match layer with
  | JObj f =>
      match lookup "base" f with
      | None | Some (JObj _) => true
      | _ => false
      end
  | _ => false
  end.

(** The "properties" of an observation as the service documents them:
    a station reference that is a string, measurements that are objects
    with a number or null as their value, a temperature unit code that is
    a string, and a list of cloud layers; any of them may be missing. *)
Definition well_formed_observation (kv : list (string * json)) : bool :=
  absent_or_str (lookup "station" kv)
  && field_ok number_ok kv "temperature"
  && match lookup "temperature" kv with
     | Some (JObj f) => absent_or_str (lookup "unitCode" f)
     | _ => true
     end
  && field_ok number_ok kv "windSpeed"
  && field_ok (fun _ => true) kv "windDirection"
  && field_ok number_ok kv "relativeHumidity"
  && field_ok number_ok kv "dewpoint"
  && field_ok number_ok kv "barometricPressure"
  && field_ok number_ok kv "visibility"
  && field_ok number_ok kv "windChill"
  && field_ok number_ok kv "heatIndex"
  && match lookup "cloudLayers" kv with
     | None | Some JNull => true
     | Some (JList l) => forallb layer_ok l
     | Some _ => false
     end
  && field_ok number_ok kv "precipitationLastHour".


(** The pressure text computed for [10 * k] pascals is [k] tenths of a
    millibar. *)
Definition pressure_exact (k : Z) : bool :=
  match (q <- num_truediv (NInt (10 * k)) (NInt 100) ;; num_format_f 1 q) with
  | Ok s => String.eqb s (tenths_text k)
  | Raise _ => false
  end.

(** * Properties *)

(** ** The runtime model on known values *)

Example strip_demo :
  strip (nl ++ "  a b " ++ String (ascii_of_nat 194) (String (ascii_of_nat 160) nl))
  = "a b".
Proof. reflexivity. Qed.

Example split_demo :
  split_last "/" "https://api.weather.gov/stations/KMPR" = "KMPR"
  /\ split_last ":" "wmoUnit:degC" = "degC"
  /\ split_last ":" "degC" = "degC"
  /\ split_last "/" "a/" = "".
Proof. repeat split; reflexivity. Qed.

Example str_of_Z_demo : str_of_Z 0 = "0" /\ str_of_Z (-42) = "-42" /\ str_of_Z 1013 = "1013".
Proof. repeat split; reflexivity. Qed.

Example py_len_demo : py_len "KMPR" = 4 /\ py_len "20°C" = 4 /\ String.length "20°C" = 5%nat.
Proof. repeat split; reflexivity. Qed.

(** The model agrees with the interpreter on these values. *)
Example repr_demo :
  map repr [of_Z (10 ^ 16); of_Z (10 ^ 15); Z_div 1 10000; Z_div 1 100000;
            Z_div 3658 100; Z_div (-12185) 100; S754_finite false 1 (-1074);
            S754_finite false (2 ^ 53 - 1) 971; of_Z 9007199254740993;
            of_Z (10 ^ 23); fadd (Z_div 1 10) (Z_div 2 10);
            of_Z 123456789012345678; Z_div 15 100000000; of_Z 100]
  = ["1e+16"; "1000000000000000.0"; "0.0001"; "1e-05"; "36.58"; "-121.85";
     "5e-324"; "1.7976931348623157e+308"; "9007199254740992.0"; "1e+23";
     "0.30000000000000004"; "1.2345678901234568e+17"; "1.5e-07"; "100.0"].
Proof. vm_compute. reflexivity. Qed.

Example fmt_fixed_demo :
  map (fmt_fixed 1) [Z_div 1 4; Z_div (-1) 100; S754_zero true; Z_div 35 100;
                     Z_div 995 100; of_Z (10 ^ 23)]
  = ["0.2"; "-0.0"; "-0.0"; "0.3"; "9.9"; "99999999999999991611392.0"]
  /\ map (fmt_fixed 0) [Z_div 5 10; Z_div 15 10; Z_div 25 10; Z_div 873 10]
     = ["0"; "2"; "2"; "87"]
  /\ map (fmt_fixed 2) [Z_div 1 8; Z_div 1 3; Z_div 200 3; Z_div 1 1000]
     = ["0.12"; "0.33"; "66.67"; "0.00"].
Proof. vm_compute. repeat split; reflexivity. Qed.

(** ** Strings and results *)

Lemma append_assoc (a b c : string) : (a ++ b) ++ c = a ++ (b ++ c).
Proof.
  induction a as [|x a IH]; simpl; [reflexivity | now rewrite IH].
Qed.

Lemma append_nil_r (a : string) : a ++ "" = a.
Proof.
  induction a as [|x a IH]; simpl; [reflexivity | now rewrite IH].
Qed.

Lemma list_ascii_of_string_app (a b : string) :
  list_ascii_of_string (a ++ b)
  = (list_ascii_of_string a ++ list_ascii_of_string b)%list.
Proof.
  induction a as [|x a IH]; simpl; [reflexivity | now rewrite IH].
Qed.

Lemma nonempty_app_r (a b : string) : nonempty b = true -> nonempty (a ++ b) = true.
Proof.
  destruct a; simpl; auto.
Qed.

Lemma bind_Ok_inv {A B : Type} (c : result A) (k : A -> result B) (b : B) :
  bind c k = Ok b -> exists a, c = Ok a /\ k a = Ok b.
Proof.
  destruct c as [a|e]; simpl; intros H; [eauto | discriminate].
Qed.

(** Splits a hypothesis [x <- c ;; k = Ok b] into its two steps. *)
Ltac bind_inv H :=
  let a := fresh "v" in
  let Ha := fresh "E" in
  apply bind_Ok_inv in H; destruct H as (a & Ha & H).

Lemma mapM_length {A B : Type} (f : A -> result B) (l : list A) (bs : list B) :
  mapM f l = Ok bs -> List.length bs = List.length l.
Proof.
  revert bs; induction l as [|a l IH]; simpl; intros bs H.
  - injection H as <-. reflexivity.
  - bind_inv H. bind_inv H. injection H as <-. simpl. f_equal. now apply IH.
Qed.

(** ** The forecast renderer *)

Section ForecastProperties.

Variable repr_str : string -> string.

Lemma format_forecast_periods (data : json) :
  format_forecast repr_str data
  = (periods <- forecast_periods data ;;
     if negb (py_truthy periods) then Ok no_forecast
     else
       shown <- py_take 14 periods ;;
       items <- py_iter shown ;;
       output <- for_each (append_period repr_str) items forecast_header ;;
       Ok (strip output)).
Proof.
  unfold format_forecast, forecast_periods.
  destruct (py_get data "properties" (JObj [])) as [props|e]; simpl; [|reflexivity].
  destruct (py_get props "periods" (JList [])) as [periods|e]; simpl; [|reflexivity].
  destruct (py_truthy periods); reflexivity.
Qed.

Lemma append_period_block (output : string) (period : json) :
  append_period repr_str output period
  = (block <- period_block repr_str period ;; Ok (output ++ block)).
Proof.
  unfold append_period, period_block.
  destruct period; try reflexivity.
  cbv [bind py_get].
  destruct (py_truthy _); rewrite !append_assoc; reflexivity.
Qed.

Lemma for_each_append_period (ps : list json) (output : string) :
  for_each (append_period repr_str) ps output
  = (blocks <- mapM (period_block repr_str) ps ;; Ok (output ++ concat_all blocks)).
Proof.
  revert output; induction ps as [|p ps IH]; intros output; simpl.
  - now rewrite append_nil_r.
  - rewrite append_period_block.
    destruct (period_block repr_str p) as [b|e]; simpl; [|reflexivity].
    rewrite IH.
    destruct (mapM (period_block repr_str) ps) as [bs|e]; simpl; [|reflexivity].
    now rewrite append_assoc.
Qed.

Lemma format_forecast_list (data : json) (ps : list json) :
  forecast_periods data = Ok (JList ps) -> ps <> [] ->
  format_forecast repr_str data = rendered_periods repr_str (firstn 14 ps).
Proof.
  intros Hp Hne. rewrite format_forecast_periods, Hp.
  destruct ps as [|p ps]; [congruence|].
  unfold rendered_periods.
  cbv [bind py_truthy negb py_take py_iter].
  rewrite for_each_append_period.
  destruct (mapM (period_block repr_str) (firstn 14 (p :: ps))); reflexivity.
Qed.

Lemma shown_field_get (fields : list (string * json)) (k default : string) :
  shown_field repr_str fields k default
    (py_str repr_str (match lookup k fields with Some v => v | None => JStr default end)).
Proof.
  unfold shown_field. destruct (lookup k fields); reflexivity.
Qed.

Lemma period_block_defaults (period : json) :
  is_dict period = true ->
  exists block, period_block repr_str period = Ok block /\ shows_defaults repr_str period block.
Proof.
  destruct period as [| | | | | |fields]; try discriminate. intros _.
  unfold period_block. cbv [bind py_get].
  eexists. split; [reflexivity|].
  exists fields. do 5 eexists.
  split; [reflexivity|]. split; [reflexivity|].
  repeat (split; [apply shown_field_get|]).
  intros Ht Hu. rewrite Ht, Hu. reflexivity.
Qed.

Lemma mapM_period_block_defaults (ps : list json) :
  Forall (fun p => is_dict p = true) ps ->
  exists blocks, mapM (period_block repr_str) ps = Ok blocks /\ Forall2 (shows_defaults repr_str) ps blocks.
Proof.
  induction 1 as [|p ps Hp _ IH].
  - exists []. split; [reflexivity | constructor].
  - destruct (period_block_defaults p Hp) as (b & Hb & Hd).
    destruct IH as (bs & Hbs & Hds).
    exists (b :: bs). split; [|now constructor].
    cbn [mapM]. rewrite Hb, Hbs. reflexivity.
Qed.

(** C6: when the periods list of the document is empty, the forecast
    renderer returns exactly the text "No forecast data available"; the
    header "Weather Forecast" and the divider of 40 "=" characters do not
    occur in it. *)
Theorem format_forecast_no_periods (data : json) :
  forecast_periods data = Ok (JList []) ->
  exists out,
    format_forecast repr_str data = Ok out
    /\ out = "No forecast data available"
    /\ index 0 "Weather Forecast" out = None
    /\ index 0 (repeat_str "=" 40) out = None.
Proof.
  intros Hp. exists no_forecast.
  rewrite format_forecast_periods, Hp.
  repeat split; reflexivity.
Qed.

(** C7: the forecast renderer renders the first 14 periods of the document
    and no other, one block per period in the order of the document: with
    more than 14 periods exactly 14 are rendered, with 14 or fewer all of
    them are. *)
Theorem format_forecast_first_14 (data : json) (ps : list json) :
  forecast_periods data = Ok (JList ps) -> ps <> [] ->
  format_forecast repr_str data = rendered_periods repr_str (firstn 14 ps)
  /\ (14 < List.length ps -> List.length (firstn 14 ps) = 14)%nat
  /\ (List.length ps <= 14 -> firstn 14 ps = ps)%nat
  /\ (forall blocks, mapM (period_block repr_str) (firstn 14 ps) = Ok blocks ->
      format_forecast repr_str data = Ok (strip (forecast_header ++ concat_all blocks))
      /\ List.length blocks = Nat.min 14 (List.length ps)
      /\ forall i p, nth_error ps i = Some p -> (i < 14)%nat ->
           exists b, nth_error blocks i = Some b /\ period_block repr_str p = Ok b).
Proof.
  intros Hp Hne.
  pose proof (format_forecast_list data ps Hp Hne) as Hf.
  split; [exact Hf|].
  split; [intros Hl; rewrite length_firstn; lia|].
  split; [intros Hl; now apply firstn_all2|].
  intros blocks Hb. rewrite Hf. unfold rendered_periods. rewrite Hb.
  split; [reflexivity|].
  split; [erewrite mapM_length by exact Hb; apply length_firstn|].
  intros i p Hi Hlt.
  assert (Hi' : nth_error (firstn 14 ps) i = Some p)
    by (rewrite nth_error_firstn; destruct (Nat.ltb_spec i 14); [exact Hi | lia]).
  clear Hi Hf Hp Hne. revert i blocks Hb Hi' Hlt.
  generalize (firstn 14 ps) as l.
  induction l as [|a l IH]; intros i blocks Hb Hi Hlt.
  - destruct i; discriminate.
  - cbn [mapM] in Hb. bind_inv Hb. bind_inv Hb. injection Hb as <-.
    destruct i as [|i]; cbn [nth_error] in *.
    + injection Hi as <-. eauto.
    + eapply IH; [eassumption | eassumption | lia].
Qed.

(** C10: a non-empty list of periods that are JSON objects always renders,
    whatever fields the periods lack: in the block of each period a missing
    name is shown as "Unknown", a missing temperature as "N/A", a missing
    temperature unit as "F" and a missing short summary as "N/A", so that a
    period with neither temperature nor unit has the line
    "  Temperature: N/A°F". *)
Theorem format_forecast_defaults (data : json) (ps : list json) :
  forecast_periods data = Ok (JList ps) -> ps <> [] ->
  Forall (fun p => is_dict p = true) ps ->
  exists blocks,
    format_forecast repr_str data = Ok (strip (forecast_header ++ concat_all blocks))
    /\ Forall2 (shows_defaults repr_str) (firstn 14 ps) blocks.
Proof.
  intros Hp Hne Hd.
  destruct (mapM_period_block_defaults (firstn 14 ps)) as (blocks & Hb & Hs).
  { rewrite <- (firstn_skipn 14 ps) in Hd. now apply Forall_app in Hd. }
  exists blocks. split; [|exact Hs].
  rewrite (format_forecast_list data ps Hp Hne).
  unfold rendered_periods. rewrite Hb. reflexivity.
Qed.

End ForecastProperties.

Lemma format_forecast_no_periods_witness :
  exists out,
    format_forecast (fun s => s) (sample_forecast []) = Ok out
    /\ out = "No forecast data available"
    /\ index 0 "Weather Forecast" out = None
    /\ index 0 (repeat_str "=" 40) out = None.
Proof.
  apply (format_forecast_no_periods (fun s => s) (sample_forecast [])).
  reflexivity.
Defined.

Lemma format_forecast_first_14_witness :
  format_forecast (fun s => s) (sample_forecast (repeat (JObj []) 20))
  = rendered_periods (fun s => s) (firstn 14 (repeat (JObj []) 20)).
Proof.
  refine (proj1 (format_forecast_first_14 (fun s => s)
                   (sample_forecast (repeat (JObj []) 20))
                   (repeat (JObj []) 20) _ _)).
  - reflexivity.
  - discriminate.
Defined.

Lemma format_forecast_defaults_witness :
  exists blocks,
    format_forecast (fun s => s) (sample_forecast sample_periods)
    = Ok (strip (forecast_header ++ concat_all blocks))
    /\ Forall2 (shows_defaults (fun s => s)) (firstn 14 sample_periods) blocks.
Proof.
  apply (format_forecast_defaults (fun s => s)
           (sample_forecast sample_periods) sample_periods).
  - reflexivity.
  - discriminate.
  - repeat constructor.
Defined.

(** A period without any field, and one with some, as the renderer shows
    them. *)
Example format_forecast_sample :
  format_forecast (fun s => s) (sample_forecast sample_periods)
  = Ok ("Weather Forecast" ++ nl ++ repeat_str "=" 40 ++ nl ++ nl
        ++ "Unknown:" ++ nl ++ "  Temperature: N/A°F" ++ nl ++ "  N/A" ++ nl ++ nl
        ++ "Tonight:" ++ nl ++ "  Temperature: 54°F" ++ nl ++ "  N/A" ++ nl
        ++ "  Cloudy.").
Proof. vm_compute. reflexivity. Qed.

(** ** The current-observation renderer *)

Lemma round_half_even_cases (num den : Z) :
  round_half_even num den = num / den \/ round_half_even num den = num / den + 1.
Proof.
  unfold round_half_even.
  destruct (2 * (num mod den) ?= den); [destruct (Z.even _)| |]; auto.
Qed.

Lemma shortest_digits_read_back (fuel : nat) :
  forall (x : float) (num den k p D p' : Z),
    shortest_digits fuel x num den k p = (D, p') ->
    p' < p + Z.of_nat fuel ->
    same_value (read_decimal D (k - p')) x = true.
Proof.
  induction fuel as [|fuel IH]; intros x num den k p D p' H Hlt.
  - cbn [shortest_digits] in H.
    destruct (candidates num den k p) as [lo near]. injection H as _ <-. lia.
  - cbn [shortest_digits] in H.
    destruct (candidates num den k p) as [lo near] eqn:Ec.
    destruct (same_value (read_decimal lo (k - p)) x) eqn:Elo;
      destruct (same_value (read_decimal (lo + 1) (k - p)) x) eqn:Ehi;
      cbn [andb] in H.
    + injection H as <- <-.
      unfold candidates in Ec.
      destruct (if 0 <=? p - k then _ else _) as [N Dn].
      injection Ec as <- <-.
      destruct (round_half_even_cases N Dn) as [-> | ->]; assumption.
    + injection H as <- <-. exact Elo.
    + injection H as <- <-. exact Ehi.
    + apply (IH _ _ _ _ _ _ _ H). lia.
Qed.

(** The decimal that [repr] prints for a finite float reads back as that
    float whenever 16 digits or fewer were enough. *)
Lemma repr_digits_read_back (m : positive) (e D p k : Z) :
  repr_digits m e = (D, p, k) ->
  p <= 16 ->
  same_value (read_decimal D (k - p)) (S754_finite false m e) = true.
Proof.
  unfold repr_digits. intros H Hp.
  destruct (frac_of m e) as [num den].
  destruct (shortest_digits _ _ _ _ _ _) as [D0 p0] eqn:Es.
  injection H as <- <- <-.
  apply (shortest_digits_read_back _ _ _ _ _ _ _ _ Es). simpl. lia.
Qed.

Lemma round_half_even_bound (num den : Z) :
  0 < den ->
  2 * Z.abs (round_half_even num den * den - num) <= den
  /\ (2 * (num mod den) = den -> Z.even (round_half_even num den) = true).
Proof.
  intros Hden. unfold round_half_even.
  pose proof (Z.div_mod num den ltac:(lia)) as Hdm.
  pose proof (Z.mod_pos_bound num den Hden) as Hb.
  destruct (Z.compare_spec (2 * (num mod den)) den) as [He|Hl|Hg].
  - destruct (Z.even (num / den)) eqn:Hev.
    + split; [nia | auto].
    + split; [nia|]. intros _.
      rewrite Z.even_add, Hev. reflexivity.
  - split; [nia | lia].
  - split; [nia | lia].
Qed.

Lemma frac_of_den_pos (m : positive) (e : Z) : 0 < snd (frac_of m e).
Proof.
  unfold frac_of. destruct (0 <=? e) eqn:He; simpl; [lia|].
  apply Z.leb_gt in He. apply Z.pow_pos_nonneg; lia.
Qed.

(** What [format(x, '.1f')] prints for a finite non-zero [x = num/den]: the
    tenths [n] nearest to [x], the even one of two equally near. *)
Lemma fmt_fixed_1_nearest (s : bool) (m : positive) (e : Z) :
  let n := fixed_scaled m e 1 in
  let num := fst (frac_of m e) in
  let den := snd (frac_of m e) in
  fmt_fixed 1 (S754_finite s m e) = sign_str s ++ fixed_digits n 1
  /\ 2 * Z.abs (n * den - 10 * num) <= den
  /\ (2 * ((10 * num) mod den) = den -> Z.even n = true).
Proof.
  cbv zeta. split; [reflexivity|].
  pose proof (frac_of_den_pos m e) as Hd.
  unfold fixed_scaled. destruct (frac_of m e) as [num den]. cbn [fst snd] in *.
  change (10 ^ Z.of_nat 1) with 10.
  replace (10 * num) with (num * 10) by lia.
  apply round_half_even_bound. exact Hd.
Qed.


Section ObservationProperties.

Variable repr_str : string -> string.

(** Every piece of a successful rendering, in the order the renderer
    computes them. *)
Lemma format_current_weather_inv (data : json) (out : string) :
  format_current_weather repr_str data = Ok out ->
  exists props station_ref station timestamp description fl
         temp_s wind_s humidity_s dewpoint_s pressure_s visibility_s cloud_s precip_s,
    py_get data "properties" (JObj []) = Ok props
    /\ py_get props "station" (JStr "Unknown") = Ok station_ref
    /\ py_split_last station_ref "/" = Ok station
    /\ py_get props "timestamp" (JStr "Unknown") = Ok timestamp
    /\ py_get props "textDescription" (JStr "N/A") = Ok description
    /\ temperature_str props = Ok temp_s
    /\ wind_str repr_str props = Ok wind_s
    /\ humidity_str props = Ok humidity_s
    /\ dewpoint_str props = Ok dewpoint_s
    /\ pressure_str props = Ok pressure_s
    /\ visibility_str props = Ok visibility_s
    /\ feels_like props = Ok fl
    /\ cloud_str repr_str props = Ok cloud_s
    /\ precip_str props = Ok precip_s
    /\ out = strip (observation_text station (py_str repr_str timestamp)
                      (py_str repr_str description) temp_s fl dewpoint_s wind_s
                      humidity_s pressure_s visibility_s cloud_s precip_s).
Proof.
  unfold format_current_weather. intros H.
  do 14 bind_inv H. injection H as <-.
  do 14 eexists. repeat (split; [eassumption|]). reflexivity.
Qed.

Lemma num_truediv_float (a b n : num) :
  num_truediv a b = Ok n -> exists q, n = NFloat q.
Proof.
  unfold num_truediv. intros H.
  destruct a as [x|x], b as [y|y]; cbn [bind num_to_float] in H.
  - destruct (y =? 0); [discriminate|].
    destruct (is_infinite _); [discriminate|]. injection H as <-. eauto.
  - bind_inv H. destruct (is_zero y); [discriminate|]. injection H as <-. eauto.
  - bind_inv H. destruct (is_zero v); [discriminate|]. injection H as <-. eauto.
  - destruct (is_zero y); [discriminate|]. injection H as <-. eauto.
Qed.

Lemma as_num_not_none (v : json) (n : num) : as_num v = Ok n -> is_none v = false.
Proof.
  destruct v; simpl; intros H; try discriminate; reflexivity.
Qed.



(** C2, as the code has it: a present numeric barometric pressure [v] is
    divided by 100 in floating point and rendered by the one-decimal
    format followed by " mb": the tenths nearest to the quotient, the even
    one of two equally near.  The input 101325 therefore renders as
    "1013.2 mb": 1013.25 is a binary64 number and lies half-way. *)
Theorem pressure_millibars (data props v : json) (n : num) (out : string) :
  py_get data "properties" (JObj []) = Ok props ->
  field_value props "barometricPressure" = Ok v ->
  as_num v = Ok n ->
  format_current_weather repr_str data = Ok out ->
  (exists q,
     num_truediv n (NInt 100) = Ok (NFloat q)
     /\ pressure_str props = Ok (fmt_fixed 1 q ++ " mb")
     /\ (exists st ts ds t fl dw wi hu vi cl pc,
           out = strip (observation_text st ts ds t fl dw wi hu
                          (fmt_fixed 1 q ++ " mb") vi cl pc))
     /\ (forall s m e, q = S754_finite s m e ->
           let tenths := fixed_scaled m e 1 in
           let num := fst (frac_of m e) in
           let den := snd (frac_of m e) in
           fmt_fixed 1 q = sign_str s ++ fixed_digits tenths 1
           /\ 2 * Z.abs (tenths * den - 10 * num) <= den
           /\ (2 * ((10 * num) mod den) = den -> Z.even tenths = true)))
  /\ (v = JInt 101325 -> pressure_str props = Ok "1013.2 mb").
Proof.
  intros Hprops Hv Hn Hout.
  destruct (format_current_weather_inv data out Hout)
    as (props' & sr & st & ts & ds & fl & t & wi & hu & dw & pr & vi & cl & pc
        & Hp & _ & _ & _ & _ & _ & _ & _ & _ & Hpr & _ & _ & _ & _ & ->).
  assert (props' = props) by congruence. subst props'.
  assert (Hstr : pressure_str props
                 = (p <- as_num v ;;
                    pressure_mb <- num_truediv p (NInt 100) ;;
                    sp <- num_format_f 1 pressure_mb ;; Ok (sp ++ " mb"))).
  { unfold pressure_str. rewrite Hv. cbn [bind].
    rewrite (as_num_not_none v n Hn). reflexivity. }
  split.
  - rewrite Hstr, Hn in Hpr. cbn [bind] in Hpr.
    bind_inv Hpr. destruct (num_truediv_float _ _ _ E) as (q & ->).
    cbn [bind num_format_f num_to_float] in Hpr. injection Hpr as <-.
    exists q. split; [exact E|].
    split; [rewrite Hstr, Hn; cbn [bind]; rewrite E; reflexivity|].
    split; [do 11 eexists; reflexivity|].
    intros s m e ->. apply fmt_fixed_1_nearest.
  - intros ->. rewrite Hstr. vm_compute. reflexivity.
Qed.

(** C1 on the code: the dewpoint and the two feels-like values are
    converted whatever their unit code says, a unit code being read for
    the temperature only.  A dewpoint of 50 given in degF is rendered as
    122.0 degrees Fahrenheit and labelled as 50.0 degrees Celsius, where the
    temperature path renders the raw value and unit. *)
Theorem dewpoint_unit_code_ignored :
  (forall u v : json,
     dewpoint_str (JObj [("dewpoint", JObj [("unitCode", u); ("value", v)])])
     = dewpoint_str (JObj [("dewpoint", JObj [("value", v)])]))
  /\ (forall u v : json,
        feels_like (JObj [("windChill", JObj [("unitCode", u); ("value", v)])])
        = feels_like (JObj [("windChill", JObj [("value", v)])]))
  /\ (forall u v : json,
        feels_like (JObj [("heatIndex", JObj [("unitCode", u); ("value", v)])])
        = feels_like (JObj [("heatIndex", JObj [("value", v)])]))
  /\ dewpoint_str
       (JObj [("dewpoint",
               JObj [("unitCode", JStr "wmoUnit:degF"); ("value", JInt 50)])])
     = Ok "122.0°F (50.0°C)"
  /\ temperature_str
       (JObj [("temperature",
               JObj [("unitCode", JStr "wmoUnit:degF"); ("value", JInt 50)])])
     = Ok "50.0°degF"
  /\ feels_like
       (JObj [("windChill",
               JObj [("unitCode", JStr "wmoUnit:degF"); ("value", JInt 20)])])
     = Ok (Some "68.0°F (Wind Chill)")
  /\ feels_like
       (JObj [("heatIndex",
               JObj [("unitCode", JStr "wmoUnit:degF"); ("value", JInt 95)])])
     = Ok (Some "203.0°F (Heat Index)").
Proof.
  repeat split; try reflexivity; vm_compute; reflexivity.
Qed.

End ObservationProperties.

Example format_current_weather_sample :
  format_current_weather (fun s => s) sample_observation = Ok sample_text.
Proof. vm_compute. reflexivity. Qed.

(** With neither feels-like value the line is absent; nothing is shown as
    N/A in its place. *)
Example format_current_weather_empty :
  format_current_weather (fun s => s) (JObj [])
  = Ok ("Current Weather for Unknown" ++ nl
        ++ repeat_str "=" 40 ++ nl
        ++ "Time: Unknown" ++ nl
        ++ "Conditions: N/A" ++ nl
        ++ "Temperature: N/A" ++ nl
        ++ "Dewpoint: N/A" ++ nl
        ++ "Wind: N/A" ++ nl
        ++ "Humidity: N/A" ++ nl
        ++ "Pressure: N/A" ++ nl
        ++ "Visibility: N/A" ++ nl
        ++ "Cloud Layers: N/A" ++ nl
        ++ "Precipitation (last hour): N/A").
Proof. vm_compute. reflexivity. Qed.


Lemma pressure_millibars_witness :
  pressure_str sample_properties = Ok "1013.2 mb".
Proof.
  refine (proj2 (pressure_millibars (fun s => s) sample_observation
                   sample_properties (JInt 101325) (NInt 101325) sample_text
                   _ _ _ _) eq_refl);
    vm_compute; reflexivity.
Defined.

(** The text that section 8 of the specification expects for 101325 Pa is
    not the one the formatter produces. *)
Lemma pressure_101325_is_not_1013_3 :
  pressure_str (JObj [("barometricPressure", JObj [("value", JInt 101325)])])
  <> Ok "1013.3 mb".
Proof.
  intros H. vm_compute in H. discriminate H.
Qed.

(** ** The resolution chain and the CLI driver *)

Lemma stdout_of_app (w1 w2 : log) :
  stdout_of (w1 ++ w2)%list = (stdout_of w1 ++ stdout_of w2)%list.
Proof. apply flat_map_app. Qed.

Lemma quiet_ret {A : Type} (a : A) : quiet (io_ret a).
Proof. intros w r w' H. injection H as _ <-. reflexivity. Qed.

Lemma quiet_lift {A : Type} (x : result A) : quiet (lift x).
Proof. intros w r w' H. injection H as _ <-. reflexivity. Qed.

Lemma quiet_print_stderr (text : string) : quiet (print_stderr text).
Proof.
  intros w r w' H. injection H as _ <-.
  rewrite stdout_of_app. apply app_nil_r.
Qed.

Lemma quiet_bind {A B : Type} (c : io A) (k : A -> io B) :
  quiet c -> (forall a, quiet (k a)) -> quiet (io_bind c k).
Proof.
  intros Hc Hk w r w' H. unfold io_bind in H.
  destruct (c w) as [[a|e] w1] eqn:Ec.
  - rewrite (Hk a _ _ _ H). eapply Hc; eauto.
  - injection H as _ <-. eapply Hc; eauto.
Qed.

Lemma quiet_try {A : Type} (body : io A) (handler : string -> io A) :
  quiet body -> (forall msg, quiet (handler msg)) ->
  quiet (try_except_request body handler).
Proof.
  intros Hb Hh w r w' H. unfold try_except_request in H.
  destruct (body w) as [[a|e] w1] eqn:Eb.
  - injection H as _ <-. eapply Hb; eauto.
  - destruct e; try (injection H as _ <-; eapply Hb; eauto).
    rewrite (Hh msg _ _ _ H). eapply Hb; eauto.
Qed.

Lemma quiet_if {A : Type} (b : bool) (c1 c2 : io A) :
  quiet c1 -> quiet c2 -> quiet (if b then c1 else c2).
Proof. destruct b; auto. Qed.

Section ProgramProperties.

Variable str_upper : string -> string.
Variable repr_str : string -> string.
Variable net : nat -> string -> response.

Lemma quiet_fetch_json (self : WeatherClient) (url : string) :
  quiet (fetch_json net self url).
Proof.
  intros w r w' H. unfold fetch_json in H.
  destruct (net _ url); injection H as _ <-;
    rewrite stdout_of_app; apply app_nil_r.
Qed.

Lemma quiet_get_current_weather (self : WeatherClient) :
  quiet (get_current_weather net self).
Proof.
  unfold get_current_weather.
  apply quiet_try; [apply quiet_fetch_json|].
  intros msg. apply quiet_bind; [apply quiet_print_stderr|].
  intros _. apply quiet_ret.
Qed.

Lemma quiet_get_forecast (self : WeatherClient) :
  quiet (get_forecast repr_str net self).
Proof.
  unfold get_forecast.
  apply quiet_try.
  - repeat first
      [ apply quiet_fetch_json | apply quiet_lift | apply quiet_print_stderr
      | apply quiet_ret | apply quiet_if
      | apply quiet_bind; [|intros ?] ].
  - intros msg. apply quiet_bind; [apply quiet_print_stderr|].
    intros _. apply quiet_ret.
Qed.

(** [main] on a command line the parser accepts. *)
Lemma main_Namespace (location : string) (forecast : bool) :
  main str_upper repr_str net (Namespace location forecast)
  = (if negb (py_len location =? 4) then
       _ <~ print_stderr (length_error location) ;;
       io_raise (SystemExit 1)
     else
       if forecast then
         data <~ get_forecast repr_str net (new_client str_upper location) ;;
         if py_truthy data then
           text <~ lift (format_forecast repr_str data) ;;
           print_stdout text
         else io_raise (SystemExit 1)
       else
         data <~ get_current_weather net (new_client str_upper location) ;;
         if py_truthy data then
           text <~ lift (format_current_weather repr_str data) ;;
           print_stdout text
         else io_raise (SystemExit 1)).
Proof. reflexivity. Qed.

(** C5: a station code whose length is not 4 makes the program print the
    length error on standard error and exit with status 1; that is all the
    run does, so no request is issued and nothing is printed on standard
    output. *)
Theorem station_code_length_checked (location : string) (forecast : bool) :
  py_len location <> 4 ->
  run str_upper repr_str net (Namespace location forecast)
  = (1, [EvStderr (length_error location)])
  /\ requests_of (snd (run str_upper repr_str net (Namespace location forecast))) = []
  /\ stdout_of (snd (run str_upper repr_str net (Namespace location forecast))) = [].
Proof.
  intros Hlen.
  assert (Hrun : run str_upper repr_str net (Namespace location forecast)
                 = (1, [EvStderr (length_error location)])).
  { unfold run. rewrite main_Namespace.
    destruct (py_len location =? 4) eqn:E; [apply Z.eqb_eq in E; contradiction|].
    reflexivity. }
  rewrite Hrun. repeat split.
Qed.

(** C4 on the code: station metadata whose geometry is JSON null, or whose
    geometry holds null coordinates, has no coordinates, yet [get_forecast]
    neither prints the coordinates error nor returns [None].  The
    [AttributeError] of [geometry.get] and the [TypeError] of
    [len(coordinates)] are no [RequestException]: they leave [get_forecast]
    and end the run with a traceback and status 1, standard error holding
    no message of the program.  The station request stays the only
    request. *)
Theorem null_geometry_escapes (location : string) (kv : list (string * json)) :
  py_len location = 4 ->
  net 0%nat (station_url (new_client str_upper location)) = RespJson (JObj kv) ->
  (lookup "geometry" kv = Some JNull ->
   get_forecast repr_str net (new_client str_upper location) []
   = (Raise AttributeError,
      [EvGet (station_url (new_client str_upper location))
         (headers (new_client str_upper location)) 10])
   /\ run str_upper repr_str net (Namespace location true)
      = (1, [EvGet (station_url (new_client str_upper location))
               (headers (new_client str_upper location)) 10;
             EvTraceback AttributeError]))
  /\ (forall g : list (string * json),
        lookup "geometry" kv = Some (JObj g) ->
        lookup "coordinates" g = Some JNull ->
        get_forecast repr_str net (new_client str_upper location) []
        = (Raise TypeError,
           [EvGet (station_url (new_client str_upper location))
              (headers (new_client str_upper location)) 10])
        /\ run str_upper repr_str net (Namespace location true)
           = (1, [EvGet (station_url (new_client str_upper location))
                    (headers (new_client str_upper location)) 10;
                  EvTraceback TypeError])).
Proof.
  intros Hlen Hnet. split.
  - intros Hg.
    assert (Hf : get_forecast repr_str net (new_client str_upper location) []
                 = (Raise AttributeError,
                    [EvGet (station_url (new_client str_upper location))
                       (headers (new_client str_upper location)) 10])).
    { unfold get_forecast, try_except_request, io_bind, fetch_json, lift.
      cbn [requests_of flat_map List.length app]. rewrite Hnet.
      unfold station_coordinates. cbn [py_get bind]. rewrite Hg. reflexivity. }
    split; [exact Hf|].
    unfold run. rewrite main_Namespace, Hlen. cbn [Z.eqb Pos.eqb negb].
    unfold io_bind at 1. rewrite Hf. reflexivity.
  - intros g Hg Hc.
    assert (Hf : get_forecast repr_str net (new_client str_upper location) []
                 = (Raise TypeError,
                    [EvGet (station_url (new_client str_upper location))
                       (headers (new_client str_upper location)) 10])).
    { unfold get_forecast, try_except_request, io_bind, fetch_json, lift.
      cbn [requests_of flat_map List.length app]. rewrite Hnet.
      unfold station_coordinates. cbn [py_get bind]. rewrite Hg.
      cbn [py_get bind]. rewrite Hc. reflexivity. }
    split; [exact Hf|].
    unfold run. rewrite main_Namespace, Hlen. cbn [Z.eqb Pos.eqb negb].
    unfold io_bind at 1. rewrite Hf. reflexivity.
Qed.

(** C3: with coordinates stored as longitude, latitude (and possibly more),
    the second request of [get_forecast] is the point lookup, and its URL
    carries the latitude first and the longitude second, each as the text
    [str] gives for the stored value itself: for two floats, their
    [repr], the shortest decimals that denote them. *)
Theorem points_request_latitude_first
  (self : WeatherClient) (station_data lon lat : json) (rest : list json) :
  net 0%nat (station_url self) = RespJson station_data ->
  station_coordinates station_data = Ok (JList (lon :: lat :: rest)) ->
  nth_error (requests_of (snd (get_forecast repr_str net self []))) 1
  = Some (BASE_URL ++ "/points/" ++ py_str repr_str lat ++ "," ++ py_str repr_str lon)
  /\ nth_error (snd (get_forecast repr_str net self [])) 1
     = Some (EvGet (points_url repr_str lat lon) (headers self) 10)
  /\ (forall x y : float, lon = JFloat x -> lat = JFloat y ->
        points_url repr_str lat lon = BASE_URL ++ "/points/" ++ repr y ++ "," ++ repr x).
Proof.
  intros Hnet Hc.
  split; [|split; [|intros x y -> ->; reflexivity]].
  all: unfold get_forecast, try_except_request, io_bind, fetch_json, lift.
  all: cbn [requests_of flat_map List.length app]; rewrite Hnet, Hc.
  all: cbn [py_len_of py_index nth List.length].
  all: assert ((Z.of_nat (S (S (List.length rest))) <? 2) = false) as ->
         by (apply Z.ltb_ge; lia).
  all: cbn [requests_of flat_map List.length app].
  all: destruct (net 1%nat _) as [msg|points_data| |]; [reflexivity| |reflexivity..].
  all: destruct (py_get points_data _ _) as [properties|e];
         [|destruct e; reflexivity].
  all: destruct (py_get properties _ _) as [forecast_url|e];
         [|destruct e; reflexivity].
  all: destruct (py_truthy forecast_url); cbn [negb]; [|reflexivity].
  all: cbn [requests_of flat_map List.length app].
  all: destruct (net 2%nat _); reflexivity.
Qed.

(** C9: whenever the fetch of either mode hands the driver a falsy
    document, an empty JSON object as well as the [None] of a failed fetch,
    the program exits with status 1 and its standard output stays empty:
    no rendering is printed.  So it is when the latest-observation request,
    or the forecast request at the end of the chain, is answered with an
    empty object. *)
Theorem falsy_document_exits_1 (location : string) :
  py_len location = 4 ->
  (forall (forecast : bool) (data : json) (w : log),
     (if forecast
      then get_forecast repr_str net (new_client str_upper location) []
      else get_current_weather net (new_client str_upper location) [])
     = (Ok data, w) ->
     py_truthy data = false ->
     run str_upper repr_str net (Namespace location forecast) = (1, w) /\ stdout_of w = [])
  /\ (net 0%nat (observation_url (new_client str_upper location)) = RespJson (JObj []) ->
      run str_upper repr_str net (Namespace location false)
      = (1, [EvGet (observation_url (new_client str_upper location))
               (headers (new_client str_upper location)) 10]))
  /\ (forall (station_data lon lat : json) (rest : list json)
             (points_data properties forecast_url : json),
        net 0%nat (station_url (new_client str_upper location)) = RespJson station_data ->
        station_coordinates station_data = Ok (JList (lon :: lat :: rest)) ->
        net 1%nat (points_url repr_str lat lon) = RespJson points_data ->
        py_get points_data "properties" (JObj []) = Ok properties ->
        py_get properties "forecast" JNull = Ok forecast_url ->
        py_truthy forecast_url = true ->
        net 2%nat (py_str repr_str forecast_url) = RespJson (JObj []) ->
        run str_upper repr_str net (Namespace location true)
        = (1, [EvGet (station_url (new_client str_upper location))
                 (headers (new_client str_upper location)) 10;
               EvGet (points_url repr_str lat lon)
                 (headers (new_client str_upper location)) 10;
               EvGet (py_str repr_str forecast_url)
                 (headers (new_client str_upper location)) 10])).
Proof.
  intros Hlen.
  assert (Hgen : forall (forecast : bool) (data : json) (w : log),
     (if forecast
      then get_forecast repr_str net (new_client str_upper location) []
      else get_current_weather net (new_client str_upper location) [])
     = (Ok data, w) ->
     py_truthy data = false ->
     run str_upper repr_str net (Namespace location forecast) = (1, w) /\ stdout_of w = []).
  { intros forecast data w Hfetch Hfalsy. split.
    - unfold run. rewrite main_Namespace. rewrite Hlen. cbn [Z.eqb Pos.eqb negb].
      destruct forecast; unfold io_bind; rewrite Hfetch, Hfalsy; reflexivity.
    - destruct forecast.
      + apply (quiet_get_forecast _ _ _ _ Hfetch).
      + apply (quiet_get_current_weather _ _ _ _ Hfetch). }
  split; [exact Hgen|]. split.
  - intros Hnet. apply (Hgen false (JObj [])); [|reflexivity].
    unfold get_current_weather, try_except_request, fetch_json.
    cbn [requests_of flat_map List.length app]. rewrite Hnet. reflexivity.
  - intros station_data lon lat rest points_data properties forecast_url
           Hn0 Hc Hn1 Hp Hf Ht Hn2.
    apply (Hgen true (JObj [])); [|reflexivity].
    unfold get_forecast, try_except_request, io_bind, fetch_json, lift.
    cbn [requests_of flat_map List.length app]. rewrite Hn0, Hc.
    cbn [py_len_of py_index nth List.length].
    assert ((Z.of_nat (S (S (List.length rest))) <? 2) = false) as ->
      by (apply Z.ltb_ge; lia).
    cbn [requests_of flat_map List.length app].
    rewrite Hn1, Hp, Hf, Ht. cbn [negb].
    cbn [requests_of flat_map List.length app].
    rewrite Hn2. reflexivity.
Qed.

End ProgramProperties.

Lemma station_code_length_checked_witness :
  run (fun s => s) (fun s => s) empty_service (Namespace "KMP" false)
  = (1, [EvStderr "Error: Station code must be 4 characters (got 'KMP')"]).
Proof.
  refine (proj1 (station_code_length_checked (fun s => s) (fun s => s)
                   empty_service "KMP" false _)).
  vm_compute. discriminate.
Defined.

Lemma null_geometry_escapes_witness :
  run (fun s => s) (fun s => s) null_geometry_service (Namespace "KMPR" true)
  = (1,
     [EvGet "https://api.weather.gov/stations/KMPR"
        [("User-Agent", "(Weather CLI Tool, contact@example.com)");
         ("Accept", "application/json")] 10;
      EvTraceback AttributeError]).
Proof.
  refine (proj2 (proj1 (null_geometry_escapes (fun s => s) (fun s => s)
                          null_geometry_service "KMPR" [("geometry", JNull)] _ _)
                   _)).
  - reflexivity.
  - reflexivity.
  - reflexivity.
Defined.

Lemma points_request_latitude_first_witness :
  nth_error (requests_of (snd (get_forecast (fun s => s) sample_service
                                 (new_client (fun s => s) "KMPR") []))) 1
  = Some "https://api.weather.gov/points/36.58,-121.85".
Proof.
  refine (proj1 (points_request_latitude_first (fun s => s) sample_service
                   (new_client (fun s => s) "KMPR") _
                   (JFloat (Z_div (-12185) 100)) (JFloat (Z_div 3658 100)) []
                   _ _)).
  - reflexivity.
  - reflexivity.
Defined.

Lemma falsy_document_exits_1_witness :
  run (fun s => s) (fun s => s) empty_service (Namespace "KMPR" false)
  = (1, [EvGet "https://api.weather.gov/stations/KMPR/observations/latest"
           [("User-Agent", "(Weather CLI Tool, contact@example.com)");
            ("Accept", "application/json")] 10]).
Proof.
  refine (proj1 (proj2 (falsy_document_exits_1 (fun s => s) (fun s => s)
                          empty_service "KMPR" _)) _).
  - reflexivity.
  - reflexivity.
Defined.

(** A whole run in forecast mode: three requests, the rendering on
    standard output, status 0. *)
Example run_forecast_sample :
  run (fun s => s) (fun s => s) sample_service (Namespace "KMPR" true)
  = (0,
     [EvGet "https://api.weather.gov/stations/KMPR"
        [("User-Agent", "(Weather CLI Tool, contact@example.com)");
         ("Accept", "application/json")] 10;
      EvGet "https://api.weather.gov/points/36.58,-121.85"
        [("User-Agent", "(Weather CLI Tool, contact@example.com)");
         ("Accept", "application/json")] 10;
      EvGet "https://api.weather.gov/gridpoints/MTR/93,58/forecast"
        [("User-Agent", "(Weather CLI Tool, contact@example.com)");
         ("Accept", "application/json")] 10;
      EvStdout ("Weather Forecast" ++ nl ++ repeat_str "=" 40 ++ nl ++ nl
                ++ "Unknown:" ++ nl ++ "  Temperature: N/A°F" ++ nl ++ "  N/A"
                ++ nl ++ nl
                ++ "Tonight:" ++ nl ++ "  Temperature: 54°F" ++ nl ++ "  N/A" ++ nl
                ++ "  Cloudy.")]).
Proof. vm_compute. reflexivity. Qed.

(** * Further properties of the code *)

(** ** Which exceptions the pure helpers raise *)

Lemma raises_plain_bind {A B : Type} (c : result A) (k : A -> result B) :
  raises_plain c -> (forall a, raises_plain (k a)) -> raises_plain (bind c k).
Proof.
  destruct c as [a|e]; simpl; auto.
Qed.

Lemma raises_plain_py_get (o : json) (k : string) (d : json) :
  raises_plain (py_get o k d).
Proof. destruct o; exact I. Qed.

Lemma raises_plain_py_split_last (v : json) (sep : ascii) :
  raises_plain (py_split_last v sep).
Proof. destruct v; exact I. Qed.

Lemma raises_plain_py_len_of (v : json) : raises_plain (py_len_of v).
Proof. destruct v; exact I. Qed.

Lemma raises_plain_py_index (v : json) (i : nat) : raises_plain (py_index v i).
Proof. destruct v; exact I. Qed.

Lemma raises_plain_py_take (n : nat) (v : json) : raises_plain (py_take n v).
Proof. destruct v; exact I. Qed.

Lemma raises_plain_py_iter (v : json) : raises_plain (py_iter v).
Proof. destruct v; exact I. Qed.

Lemma raises_plain_as_num (v : json) : raises_plain (as_num v).
Proof. destruct v; exact I. Qed.

Lemma raises_plain_num_to_float (n : num) : raises_plain (num_to_float n).
Proof.
  destruct n; [|exact I]. unfold num_to_float, int_to_float.
  destruct (is_infinite _); exact I.
Qed.

Lemma raises_plain_if {A : Type} (b : bool) (c1 c2 : result A) :
  raises_plain c1 -> raises_plain c2 -> raises_plain (if b then c1 else c2).
Proof. destruct b; auto. Qed.

Lemma raises_plain_Ok {A : Type} (a : A) : raises_plain (Ok a).
Proof. exact I. Qed.

Lemma raises_plain_num_mul (a b : num) : raises_plain (num_mul a b).
Proof.
  destruct a, b; try exact I;
    (apply raises_plain_bind; [apply raises_plain_num_to_float|intros ?];
     apply raises_plain_bind; [apply raises_plain_num_to_float|intros ?]; exact I).
Qed.

Lemma raises_plain_num_add (a b : num) : raises_plain (num_add a b).
Proof.
  destruct a, b; try exact I;
    (apply raises_plain_bind; [apply raises_plain_num_to_float|intros ?];
     apply raises_plain_bind; [apply raises_plain_num_to_float|intros ?]; exact I).
Qed.

Lemma raises_plain_num_truediv (a b : num) : raises_plain (num_truediv a b).
Proof.
  destruct a as [x|x], b as [y|y].
  - unfold num_truediv. destruct (y =? 0); [exact I|].
    destruct (is_infinite _); exact I.
  - unfold num_truediv.
    apply raises_plain_bind; [apply raises_plain_num_to_float|intros ?].
    apply raises_plain_bind; [apply raises_plain_num_to_float|intros ?].
    destruct (is_zero _); exact I.
  - unfold num_truediv.
    apply raises_plain_bind; [apply raises_plain_num_to_float|intros ?].
    apply raises_plain_bind; [apply raises_plain_num_to_float|intros ?].
    destruct (is_zero _); exact I.
  - unfold num_truediv.
    apply raises_plain_bind; [apply raises_plain_num_to_float|intros ?].
    apply raises_plain_bind; [apply raises_plain_num_to_float|intros ?].
    destruct (is_zero _); exact I.
Qed.

Lemma raises_plain_num_format_f (d : nat) (n : num) : raises_plain (num_format_f d n).
Proof.
  unfold num_format_f.
  apply raises_plain_bind; [apply raises_plain_num_to_float|intros ?; exact I].
Qed.

Lemma raises_plain_py_format_f (d : nat) (v : json) : raises_plain (py_format_f d v).
Proof.
  destruct v; try exact I; apply raises_plain_num_format_f.
Qed.

Lemma raises_plain_to_fahrenheit (v : json) : raises_plain (to_fahrenheit v).
Proof.
  unfold to_fahrenheit.
  apply raises_plain_bind; [apply raises_plain_as_num|intros ?].
  apply raises_plain_bind; [apply raises_plain_num_mul|intros ?].
  apply raises_plain_bind; [apply raises_plain_num_truediv|intros ?].
  apply raises_plain_num_add.
Qed.

Lemma raises_plain_mapM {A B : Type} (f : A -> result B) (l : list A) :
  (forall a, raises_plain (f a)) -> raises_plain (mapM f l).
Proof.
  intros Hf. induction l as [|a l IH]; [exact I|]. cbn [mapM].
  apply raises_plain_bind; [apply Hf|intros ?].
  apply raises_plain_bind; [apply IH|intros ?; exact I].
Qed.

Lemma raises_plain_for_each {A S : Type} (body : S -> A -> result S) (l : list A) :
  (forall s a, raises_plain (body s a)) -> forall acc, raises_plain (for_each body l acc).
Proof.
  intros Hb. induction l as [|a l IH]; intros acc; [exact I|]. cbn [for_each].
  apply raises_plain_bind; [apply Hb|intros ?; apply IH].
Qed.

(** Closes a goal [raises_plain c] for a computation built from the
    helpers above. *)
Ltac plain_exn_tac :=
  repeat first
    [ exact I
    | apply raises_plain_py_get | apply raises_plain_py_split_last
    | apply raises_plain_py_len_of | apply raises_plain_py_index
    | apply raises_plain_py_take | apply raises_plain_py_iter
    | apply raises_plain_as_num | apply raises_plain_num_truediv
    | apply raises_plain_num_format_f | apply raises_plain_py_format_f
    | apply raises_plain_to_fahrenheit
    | apply raises_plain_if
    | apply raises_plain_mapM; intros ?
    | apply raises_plain_for_each; intros ? ?
    | apply raises_plain_bind; [|intros ?] ].

Lemma raises_plain_station_coordinates (station_data : json) :
  raises_plain (station_coordinates station_data).
Proof. unfold station_coordinates. plain_exn_tac. Qed.

Lemma raises_plain_format_forecast (repr_str : string -> string) (data : json) :
  raises_plain (format_forecast repr_str data).
Proof.
  unfold format_forecast. plain_exn_tac.
Qed.

Lemma raises_plain_format_current_weather (repr_str : string -> string) (data : json) :
  raises_plain (format_current_weather repr_str data).
Proof.
  unfold format_current_weather, temperature_str, wind_str, humidity_str,
    dewpoint_str, pressure_str, visibility_str, feels_like, cloud_str,
    precip_str, field_value.
  plain_exn_tac.
Qed.

(** ** The resolution chain *)

Section ChainProperties.

Variable str_upper : string -> string.
Variable repr_str : string -> string.
Variable net : nat -> string -> response.

(** Case analysis on the next answer, lookup or test a hypothesis
    branches on. *)
Ltac chain_step :=
  match goal with
  | H : context [match ?x with _ => _ end] |- _ =>
      lazymatch x with
      | context [match _ with _ => _ end] => fail
      | _ => destruct x eqn:?
      end
  end.

Ltac chain_cases H :=
  unfold get_forecast, get_current_weather, try_except_request, io_bind,
    fetch_json, lift, print_stderr, io_ret in H;
  cbn [requests_of flat_map List.length app] in H;
  repeat (chain_step; cbn [requests_of flat_map List.length app negb] in * ).

(** Every run of [get_forecast]: the log opens with the station request,
    holds one to three requests, each with the fixed headers and timeout,
    and an exception that escapes is a plain one. *)
Lemma get_forecast_log_shape (self : WeatherClient) (r : result json) (w : log) :
  get_forecast repr_str net self [] = (r, w) ->
  hd_error w = Some (EvGet (station_url self) (headers self) 10)
  /\ (1 <= List.length (requests_of w) <= 3)%nat
  /\ Forall (fixed_request self) w
  /\ raises_plain r.
Proof.
  intros H. chain_cases H.
  all: injection H as <- <-.
  all: split; [reflexivity|split; [cbn; lia|split; [repeat constructor|]]].
  all: try exact I.
  all: match goal with
       | E : ?c = Raise ?e |- raises_plain (Raise ?e) =>
           let P := fresh "P" in
           assert (P : raises_plain c)
             by first [ apply raises_plain_station_coordinates | plain_exn_tac ];
           rewrite E in P; exact P
       end.
Qed.

Lemma get_current_weather_log_shape (self : WeatherClient) (r : result json) (w : log) :
  get_current_weather net self [] = (r, w) ->
  hd_error w = Some (EvGet (observation_url self) (headers self) 10)
  /\ List.length (requests_of w) = 1%nat
  /\ Forall (fixed_request self) w
  /\ raises_plain r.
Proof.
  intros H. chain_cases H.
  all: injection H as <- <-.
  all: split; [reflexivity|split; [reflexivity|split; [repeat constructor|exact I]]].
Qed.

(** X1: [get_current_weather] issues exactly one request, to the
    latest-observation URL of the upper-cased station code, with the
    identification headers and a timeout of 10, and what it does next is
    decided by the answer alone.  It returns the document of the answer as
    it is; on a [RequestException] it prints "Error fetching current
    weather: " and the cause on standard error and returns [None]; an
    exception of [json()] that is no [RequestException] is not caught: it
    escapes, and nothing is printed. *)
Theorem get_current_weather_one_request (code : string) :
  exists (r : result json) (rest : log),
    get_current_weather net (new_client str_upper code) []
    = (r,
       EvGet ("https://api.weather.gov/stations/" ++ str_upper code
              ++ "/observations/latest")
         [("User-Agent", "(Weather CLI Tool, contact@example.com)");
          ("Accept", "application/json")] 10 :: rest)
    /\ match net 0%nat ("https://api.weather.gov/stations/" ++ str_upper code
                        ++ "/observations/latest") with
       | RespJson doc => r = Ok doc /\ rest = []
       | RespError msg =>
           r = Ok JNull
           /\ rest = [EvStderr ("Error fetching current weather: " ++ msg)]
       | RespValueError => r = Raise ValueError /\ rest = []
       | RespRecursionError => r = Raise RecursionError /\ rest = []
       end.
Proof.
  unfold get_current_weather, try_except_request, fetch_json, observation_url.
  cbn [requests_of flat_map List.length app new_client station_code headers].
  change (BASE_URL ++ "/stations/" ++ str_upper code ++ "/observations/latest")
    with ("https://api.weather.gov/stations/" ++ str_upper code
          ++ "/observations/latest").
  destruct (net 0%nat _) as [msg|doc| |];
    do 2 eexists; (split; [reflexivity|]); split; reflexivity.
Qed.

(** X2: whatever the service answers, [get_forecast] starts with the
    station request, issues at least one and at most three requests, all
    with the client's headers and a timeout of 10, writes nothing on
    standard output, and lets no [RequestException] (nor a [SystemExit])
    escape. *)
Theorem get_forecast_requests (self : WeatherClient) :
  hd_error (snd (get_forecast repr_str net self []))
  = Some (EvGet (station_url self) (headers self) 10)
  /\ (1 <= List.length (requests_of (snd (get_forecast repr_str net self []))) <= 3)%nat
  /\ Forall (fixed_request self) (snd (get_forecast repr_str net self []))
  /\ stdout_of (snd (get_forecast repr_str net self [])) = []
  /\ raises_plain (fst (get_forecast repr_str net self [])).
Proof.
  destruct (get_forecast repr_str net self []) as [r w] eqn:E. cbn [fst snd].
  destruct (get_forecast_log_shape self r w E) as (H1 & H2 & H3 & H4).
  repeat split; try assumption; try lia.
  apply (quiet_get_forecast repr_str net self _ _ _ E).
Qed.

(** X3: a transport failure at the station request, at the point lookup or
    at the forecast request makes [get_forecast] print "Error fetching
    forecast: " and the cause on standard error and return [None]; the
    failed request is the last one of the chain. *)
Theorem get_forecast_transport_failure (self : WeatherClient) (msg : string) :
  (net 0%nat (station_url self) = RespError msg ->
   get_forecast repr_str net self []
   = (Ok JNull,
      [EvGet (station_url self) (headers self) 10;
       EvStderr ("Error fetching forecast: " ++ msg)]))
  /\ (forall (station_data lon lat : json) (rest : list json),
        net 0%nat (station_url self) = RespJson station_data ->
        station_coordinates station_data = Ok (JList (lon :: lat :: rest)) ->
        net 1%nat (points_url repr_str lat lon) = RespError msg ->
        get_forecast repr_str net self []
        = (Ok JNull,
           [EvGet (station_url self) (headers self) 10;
            EvGet (points_url repr_str lat lon) (headers self) 10;
            EvStderr ("Error fetching forecast: " ++ msg)]))
  /\ (forall (station_data lon lat : json) (rest : list json)
             (points_data properties forecast_url : json),
        net 0%nat (station_url self) = RespJson station_data ->
        station_coordinates station_data = Ok (JList (lon :: lat :: rest)) ->
        net 1%nat (points_url repr_str lat lon) = RespJson points_data ->
        py_get points_data "properties" (JObj []) = Ok properties ->
        py_get properties "forecast" JNull = Ok forecast_url ->
        py_truthy forecast_url = true ->
        net 2%nat (py_str repr_str forecast_url) = RespError msg ->
        get_forecast repr_str net self []
        = (Ok JNull,
           [EvGet (station_url self) (headers self) 10;
            EvGet (points_url repr_str lat lon) (headers self) 10;
            EvGet (py_str repr_str forecast_url) (headers self) 10;
            EvStderr ("Error fetching forecast: " ++ msg)])).
Proof.
  assert (Hlen : forall rest : list json,
             (Z.of_nat (S (S (List.length rest))) <? 2) = false)
    by (intros rest; apply Z.ltb_ge; lia).
  split; [|split].
  - intros Hn0.
    unfold get_forecast, try_except_request, io_bind, fetch_json.
    cbn [requests_of flat_map List.length app]. rewrite Hn0. reflexivity.
  - intros station_data lon lat rest Hn0 Hc Hn1.
    unfold get_forecast, try_except_request, io_bind, fetch_json, lift.
    cbn [requests_of flat_map List.length app]. rewrite Hn0, Hc.
    cbn [py_len_of py_index nth List.length]. rewrite Hlen.
    cbn [requests_of flat_map List.length app]. rewrite Hn1. reflexivity.
  - intros station_data lon lat rest points_data properties forecast_url
           Hn0 Hc Hn1 Hp Hf Ht Hn2.
    unfold get_forecast, try_except_request, io_bind, fetch_json, lift.
    cbn [requests_of flat_map List.length app]. rewrite Hn0, Hc.
    cbn [py_len_of py_index nth List.length]. rewrite Hlen.
    cbn [requests_of flat_map List.length app]. rewrite Hn1, Hp, Hf, Ht.
    cbn [negb requests_of flat_map List.length app]. rewrite Hn2. reflexivity.
Qed.

(** X21: when the station metadata yields coordinates that have a length
    and fewer than two components (an empty or one-element list; also the
    empty list taken when the geometry or its coordinates are missing),
    [get_forecast] prints "Error: Could not determine station coordinates"
    on standard error and returns [None]; the station request is the only
    request of the chain. *)
Theorem missing_coordinates_stop_chain
  (self : WeatherClient) (station_data coordinates : json) (n : Z) :
  net 0%nat (station_url self) = RespJson station_data ->
  station_coordinates station_data = Ok coordinates ->
  py_len_of coordinates = Ok n ->
  n < 2 ->
  get_forecast repr_str net self []
  = (Ok JNull,
     [EvGet (station_url self) (headers self) 10;
      EvStderr "Error: Could not determine station coordinates"])
  /\ requests_of (snd (get_forecast repr_str net self [])) = [station_url self].
Proof.
  intros Hnet Hc Hn Hlt.
  assert (Hrun : get_forecast repr_str net self []
                 = (Ok JNull,
                    [EvGet (station_url self) (headers self) 10;
                     EvStderr "Error: Could not determine station coordinates"])).
  { unfold get_forecast, try_except_request, io_bind, fetch_json, lift.
    cbn [requests_of flat_map List.length]. rewrite Hnet, Hc, Hn.
    apply Z.ltb_lt in Hlt. rewrite Hlt. reflexivity. }
  rewrite Hrun. split; reflexivity.
Qed.

(** X4: when the grid-point answer holds no forecast reference (the key is
    missing, or its value is falsy), [get_forecast] prints "Error: Could
    not determine forecast URL" on standard error and returns [None] after
    two requests; there is no third one. *)
Theorem missing_forecast_url_stops_chain
  (self : WeatherClient) (station_data lon lat : json) (rest : list json)
  (points_data properties forecast_url : json) :
  net 0%nat (station_url self) = RespJson station_data ->
  station_coordinates station_data = Ok (JList (lon :: lat :: rest)) ->
  net 1%nat (points_url repr_str lat lon) = RespJson points_data ->
  py_get points_data "properties" (JObj []) = Ok properties ->
  py_get properties "forecast" JNull = Ok forecast_url ->
  py_truthy forecast_url = false ->
  get_forecast repr_str net self []
  = (Ok JNull,
     [EvGet (station_url self) (headers self) 10;
      EvGet (points_url repr_str lat lon) (headers self) 10;
      EvStderr "Error: Could not determine forecast URL"]).
Proof.
  intros Hn0 Hc Hn1 Hp Hf Ht.
  unfold get_forecast, try_except_request, io_bind, fetch_json, lift.
  cbn [requests_of flat_map List.length app]. rewrite Hn0, Hc.
  cbn [py_len_of py_index nth List.length].
  assert ((Z.of_nat (S (S (List.length rest))) <? 2) = false) as ->
    by (apply Z.ltb_ge; lia).
  cbn [requests_of flat_map List.length app]. rewrite Hn1, Hp, Hf, Ht.
  reflexivity.
Qed.

Lemma get_forecast_chain_ok
  (self : WeatherClient) (station_data lon lat : json) (rest : list json)
  (points_data properties forecast_url forecast : json) :
  net 0%nat (station_url self) = RespJson station_data ->
  station_coordinates station_data = Ok (JList (lon :: lat :: rest)) ->
  net 1%nat (points_url repr_str lat lon) = RespJson points_data ->
  py_get points_data "properties" (JObj []) = Ok properties ->
  py_get properties "forecast" JNull = Ok forecast_url ->
  py_truthy forecast_url = true ->
  net 2%nat (py_str repr_str forecast_url) = RespJson forecast ->
  get_forecast repr_str net self []
  = (Ok forecast,
     [EvGet (station_url self) (headers self) 10;
      EvGet (points_url repr_str lat lon) (headers self) 10;
      EvGet (py_str repr_str forecast_url) (headers self) 10]).
Proof.
  intros Hn0 Hc Hn1 Hp Hf Ht Hn2.
  unfold get_forecast, try_except_request, io_bind, fetch_json, lift.
  cbn [requests_of flat_map List.length app]. rewrite Hn0, Hc.
  cbn [py_len_of py_index nth List.length].
  assert ((Z.of_nat (S (S (List.length rest))) <? 2) = false) as ->
    by (apply Z.ltb_ge; lia).
  cbn [requests_of flat_map List.length app]. rewrite Hn1, Hp, Hf, Ht.
  cbn [negb requests_of flat_map List.length app]. rewrite Hn2. reflexivity.
Qed.

(** X5: when the three requests succeed, [get_forecast] returns the
    document of the third answer unchanged; the log is the station
    request, the point lookup and the request to the forecast reference,
    and nothing is printed. *)
Theorem get_forecast_success
  (self : WeatherClient) (station_data lon lat : json) (rest : list json)
  (points_data properties forecast_url forecast : json) :
  net 0%nat (station_url self) = RespJson station_data ->
  station_coordinates station_data = Ok (JList (lon :: lat :: rest)) ->
  net 1%nat (points_url repr_str lat lon) = RespJson points_data ->
  py_get points_data "properties" (JObj []) = Ok properties ->
  py_get properties "forecast" JNull = Ok forecast_url ->
  py_truthy forecast_url = true ->
  net 2%nat (py_str repr_str forecast_url) = RespJson forecast ->
  get_forecast repr_str net self []
  = (Ok forecast,
     [EvGet (station_url self) (headers self) 10;
      EvGet (points_url repr_str lat lon) (headers self) 10;
      EvGet (py_str repr_str forecast_url) (headers self) 10]).
Proof. apply get_forecast_chain_ok. Qed.

End ChainProperties.

(** ** The driver *)

Lemma requests_of_app (w1 w2 : log) :
  requests_of (w1 ++ w2)%list = (requests_of w1 ++ requests_of w2)%list.
Proof. apply flat_map_app. Qed.

Lemma format_current_weather_not_dict (repr_str : string -> string) (data : json) :
  is_dict data = false -> format_current_weather repr_str data = Raise AttributeError.
Proof. destruct data; try reflexivity; discriminate. Qed.

Section DriverProperties.

Variable str_upper : string -> string.
Variable repr_str : string -> string.
Variable net : nat -> string -> response.

(** The fetch of a mode, and its renderer. *)
Lemma main_valid_code (location : string) (forecast : bool) :
  py_len location = 4 ->
  main str_upper repr_str net (Namespace location forecast)
  = (data <~ (if forecast
              then get_forecast repr_str net (new_client str_upper location)
              else get_current_weather net (new_client str_upper location)) ;;
     if py_truthy data then
       text <~ lift ((if forecast then format_forecast repr_str
                      else format_current_weather repr_str) data) ;;
       print_stdout text
     else io_raise (SystemExit 1)).
Proof.
  intros Hlen. rewrite main_Namespace, Hlen. cbn [Z.eqb Pos.eqb negb].
  destruct forecast; reflexivity.
Qed.

(** X6: an answer that is not a JSON object where the program expects one
    is not handled: the [AttributeError] of the first [get] reaches the top,
    so the run ends with a traceback and status 1 and prints nothing on
    standard output.  So it is for a truthy latest-observation document
    that is no object (the renderer raises), and for any station metadata
    that is no object (the chain raises; the handler for request errors
    does not catch it). *)
Theorem non_object_answer_crashes (location : string) :
  py_len location = 4 ->
  (forall data : json,
     net 0%nat (observation_url (new_client str_upper location)) = RespJson data ->
     py_truthy data = true ->
     is_dict data = false ->
     run str_upper repr_str net (Namespace location false)
     = (1, [EvGet (observation_url (new_client str_upper location))
              (headers (new_client str_upper location)) 10;
            EvTraceback AttributeError]))
  /\ (forall station_data : json,
        net 0%nat (station_url (new_client str_upper location)) = RespJson station_data ->
        is_dict station_data = false ->
        run str_upper repr_str net (Namespace location true)
        = (1, [EvGet (station_url (new_client str_upper location))
                 (headers (new_client str_upper location)) 10;
               EvTraceback AttributeError])).
Proof.
  intros Hlen. split.
  - intros data Hn Ht Hd.
    unfold run. rewrite (main_valid_code location false Hlen).
    unfold get_current_weather, try_except_request, io_bind, fetch_json, lift.
    cbn [requests_of flat_map List.length app]. rewrite Hn, Ht.
    rewrite (format_current_weather_not_dict repr_str data Hd). reflexivity.
  - intros station_data Hn Hd.
    unfold run. rewrite (main_valid_code location true Hlen).
    unfold get_forecast, try_except_request, io_bind, fetch_json, lift.
    cbn [requests_of flat_map List.length app]. rewrite Hn.
    assert (Hc : station_coordinates station_data = Raise AttributeError)
      by (destruct station_data; try reflexivity; discriminate).
    rewrite Hc. reflexivity.
Qed.

(** X22: an exception of [json()] that is no [RequestException] is handled
    nowhere.  When the first answer of a run, in either mode, has a body
    that [json()] rejects with a [ValueError] or a [RecursionError], the run
    ends with the traceback of that exception and status 1 after this one
    request; the program writes nothing on standard output and no message
    on standard error. *)
Theorem undecodable_body_crashes (location : string) (forecast : bool) :
  py_len location = 4 ->
  (net 0%nat (if forecast then station_url (new_client str_upper location)
              else observation_url (new_client str_upper location))
   = RespValueError ->
   run str_upper repr_str net (Namespace location forecast)
   = (1, [EvGet (if forecast then station_url (new_client str_upper location)
                 else observation_url (new_client str_upper location))
            (headers (new_client str_upper location)) 10;
          EvTraceback ValueError]))
  /\ (net 0%nat (if forecast then station_url (new_client str_upper location)
                 else observation_url (new_client str_upper location))
      = RespRecursionError ->
      run str_upper repr_str net (Namespace location forecast)
      = (1, [EvGet (if forecast then station_url (new_client str_upper location)
                    else observation_url (new_client str_upper location))
               (headers (new_client str_upper location)) 10;
             EvTraceback RecursionError])).
Proof.
  intros Hlen.
  split; intros Hn; unfold run; rewrite (main_valid_code location forecast Hlen);
    destruct forecast;
    unfold get_forecast, get_current_weather, try_except_request, io_bind,
      fetch_json, lift;
    cbn [requests_of flat_map List.length app]; rewrite Hn; reflexivity.
Qed.

(** X7: when the fetch of the chosen mode returns a truthy document and
    its renderer returns a text, the program prints that text once on
    standard output, after everything the fetch logged, and exits with
    status 0. *)
Theorem successful_run
  (location : string) (forecast : bool) (data : json) (w : log) (text : string) :
  py_len location = 4 ->
  (if forecast
   then get_forecast repr_str net (new_client str_upper location) []
   else get_current_weather net (new_client str_upper location) [])
  = (Ok data, w) ->
  py_truthy data = true ->
  (if forecast then format_forecast repr_str data
   else format_current_weather repr_str data) = Ok text ->
  run str_upper repr_str net (Namespace location forecast) = (0, (w ++ [EvStdout text])%list)
  /\ stdout_of (w ++ [EvStdout text])%list = [text].
Proof.
  intros Hlen Hfetch Ht Hr. split.
  - unfold run. rewrite (main_valid_code location forecast Hlen).
    unfold io_bind, lift, print_stdout.
    destruct forecast; rewrite Hfetch, Ht, Hr; reflexivity.
  - rewrite stdout_of_app.
    destruct forecast.
    + rewrite (quiet_get_forecast _ _ _ _ _ _ Hfetch). reflexivity.
    + rewrite (quiet_get_current_weather _ _ _ _ _ Hfetch). reflexivity.
Qed.

(** X8: a run ends with status 0, 1 or 2.  Status 2 is the parser's alone:
    the command line was rejected, usage and message went to standard
    error, nothing was requested and nothing written on standard output.
    A request for help ends with status 0, the help being the one text on
    standard output, and no request.  On an accepted command line the
    status is 0 or 1: with 0 exactly one text was written on standard
    output, with 1 none; current mode issues at most one request and
    forecast mode at most three. *)
Theorem run_outcome (args : parsed) :
  ((fst (run str_upper repr_str net args) = 0
    /\ exists text, stdout_of (snd (run str_upper repr_str net args)) = [text])
   \/ (fst (run str_upper repr_str net args) = 1
       /\ stdout_of (snd (run str_upper repr_str net args)) = []
       /\ exists location forecast, args = Namespace location forecast)
   \/ (fst (run str_upper repr_str net args) = 2
       /\ stdout_of (snd (run str_upper repr_str net args)) = []
       /\ exists usage message, args = UsageError usage message))
  /\ (List.length (requests_of (snd (run str_upper repr_str net args)))
      <= match args with
         | Namespace _ true => 3
         | Namespace _ false => 1
         | _ => 0
         end)%nat
  /\ match args with
     | Namespace _ _ => True
     | HelpRequested help => run str_upper repr_str net args = (0, [EvStdout help])
     | UsageError usage message =>
         run str_upper repr_str net args = (2, [EvStderr usage; EvStderr message])
     end.
Proof.
  destruct args as [location forecast|help|usage message].
  2:{ cbn. split; [left; split; [reflexivity|exists help; reflexivity]|].
      split; [lia|reflexivity]. }
  2:{ cbn. split; [right; right; split; [reflexivity|split; [reflexivity|eauto]]|].
      split; [lia|reflexivity]. }
  cut (((fst (run str_upper repr_str net (Namespace location forecast)) = 0
         /\ exists text,
              stdout_of (snd (run str_upper repr_str net (Namespace location forecast)))
              = [text])
        \/ (fst (run str_upper repr_str net (Namespace location forecast)) = 1
            /\ stdout_of (snd (run str_upper repr_str net (Namespace location forecast)))
               = []))
       /\ (List.length
             (requests_of (snd (run str_upper repr_str net (Namespace location forecast))))
           <= if forecast then 3 else 1)%nat).
  { intros [[H0|[H1 H1']] Hreq].
    - split; [left; exact H0|]. split; [destruct forecast; exact Hreq|exact I].
    - split; [right; left; split; [exact H1|split; [exact H1'|eauto]]|].
      split; [destruct forecast; exact Hreq|exact I]. }
  destruct (Z.eq_dec (py_len location) 4) as [Hlen|Hlen].
  2:{ unfold run. rewrite main_Namespace.
      destruct (py_len location =? 4) eqn:E; [apply Z.eqb_eq in E; contradiction|].
      cbn. split; [right; split; reflexivity | destruct forecast; lia]. }
  unfold run. rewrite (main_valid_code location forecast Hlen).
  unfold io_bind, lift, print_stdout, io_raise.
  set (fetch := if forecast
                then get_forecast repr_str net (new_client str_upper location)
                else get_current_weather net (new_client str_upper location)).
  destruct (fetch []) as [r w] eqn:Hfetch.
  assert (Hshape : stdout_of w = []
                   /\ (List.length (requests_of w) <= if forecast then 3 else 1)%nat
                   /\ raises_plain r).
  { subst fetch. destruct forecast.
    - destruct (get_forecast_log_shape _ _ _ _ _ Hfetch) as (_ & Hn & _ & Hp).
      split; [apply (quiet_get_forecast _ _ _ _ _ _ Hfetch) | split; [lia | exact Hp]].
    - destruct (get_current_weather_log_shape _ _ _ _ Hfetch) as (_ & Hn & _ & Hp).
      split; [apply (quiet_get_current_weather _ _ _ _ _ Hfetch) | split; [lia | exact Hp]]. }
  destruct Hshape as (Hout & Hreq & Hplain).
  destruct r as [data|e].
  - destruct (py_truthy data).
    + set (render := if forecast then format_forecast repr_str
                     else format_current_weather repr_str).
      assert (Hr : raises_plain (render data))
        by (subst render; destruct forecast;
            [apply raises_plain_format_forecast
            |apply raises_plain_format_current_weather]).
      destruct (render data) as [text|e]; cbn [fst snd].
      * rewrite stdout_of_app, requests_of_app, Hout.
        cbn [requests_of stdout_of flat_map app]. rewrite app_nil_r.
        split; [left; split; [reflexivity | exists text; reflexivity] | exact Hreq].
      * destruct e; try contradiction; cbn [fst snd];
          rewrite stdout_of_app, requests_of_app, Hout;
          cbn [requests_of stdout_of flat_map app]; rewrite app_nil_r;
          (split; [right; split; reflexivity | exact Hreq]).
    + cbn [fst snd]. split; [right; split; [reflexivity | exact Hout] | exact Hreq].
  - destruct e; try contradiction; cbn [fst snd];
      rewrite stdout_of_app, requests_of_app, Hout;
      cbn [requests_of stdout_of flat_map app]; rewrite app_nil_r;
      (split; [right; split; reflexivity | exact Hreq]).
Qed.

End DriverProperties.

Lemma get_forecast_transport_failure_witness :
  get_forecast (fun s => s) failing_service (new_client (fun s => s) "KMPR") []
  = (Ok JNull,
     [EvGet "https://api.weather.gov/stations/KMPR"
        [("User-Agent", "(Weather CLI Tool, contact@example.com)");
         ("Accept", "application/json")] 10;
      EvStderr "Error fetching forecast: timed out"]).
Proof.
  refine (proj1 (get_forecast_transport_failure (fun s => s) failing_service
                   (new_client (fun s => s) "KMPR") "timed out") _).
  reflexivity.
Defined.

Lemma missing_coordinates_stop_chain_witness :
  requests_of (snd (get_forecast (fun s => s) empty_service
                      (new_client (fun s => s) "KMPR") []))
  = ["https://api.weather.gov/stations/KMPR"].
Proof.
  refine (proj2 (missing_coordinates_stop_chain (fun s => s) empty_service
                   (new_client (fun s => s) "KMPR") (JObj []) (JList []) 0
                   _ _ _ _)).
  - reflexivity.
  - reflexivity.
  - reflexivity.
  - lia.
Defined.

Lemma missing_forecast_url_stops_chain_witness :
  get_forecast (fun s => s) no_forecast_service (new_client (fun s => s) "KMPR") []
  = (Ok JNull,
     [EvGet "https://api.weather.gov/stations/KMPR"
        [("User-Agent", "(Weather CLI Tool, contact@example.com)");
         ("Accept", "application/json")] 10;
      EvGet "https://api.weather.gov/points/36.58,-121.85"
        [("User-Agent", "(Weather CLI Tool, contact@example.com)");
         ("Accept", "application/json")] 10;
      EvStderr "Error: Could not determine forecast URL"]).
Proof.
  refine (missing_forecast_url_stops_chain (fun s => s) no_forecast_service
            (new_client (fun s => s) "KMPR") _
            (JFloat (Z_div (-12185) 100)) (JFloat (Z_div 3658 100)) []
            _ (JObj [("forecast", JNull)]) JNull _ _ _ _ _ _);
    reflexivity.
Defined.

Lemma get_forecast_success_witness :
  get_forecast (fun s => s) sample_service (new_client (fun s => s) "KMPR") []
  = (Ok (sample_forecast sample_periods),
     [EvGet "https://api.weather.gov/stations/KMPR"
        [("User-Agent", "(Weather CLI Tool, contact@example.com)");
         ("Accept", "application/json")] 10;
      EvGet "https://api.weather.gov/points/36.58,-121.85"
        [("User-Agent", "(Weather CLI Tool, contact@example.com)");
         ("Accept", "application/json")] 10;
      EvGet "https://api.weather.gov/gridpoints/MTR/93,58/forecast"
        [("User-Agent", "(Weather CLI Tool, contact@example.com)");
         ("Accept", "application/json")] 10]).
Proof.
  refine (get_forecast_success (fun s => s) sample_service
            (new_client (fun s => s) "KMPR") _
            (JFloat (Z_div (-12185) 100)) (JFloat (Z_div 3658 100)) []
            _ (JObj [("forecast",
                      JStr "https://api.weather.gov/gridpoints/MTR/93,58/forecast")])
            (JStr "https://api.weather.gov/gridpoints/MTR/93,58/forecast")
            (sample_forecast sample_periods) _ _ _ _ _ _ _);
    reflexivity.
Defined.

Lemma non_object_answer_crashes_witness :
  run (fun s => s) (fun s => s) list_service (Namespace "KMPR" false)
  = (1,
     [EvGet "https://api.weather.gov/stations/KMPR/observations/latest"
        [("User-Agent", "(Weather CLI Tool, contact@example.com)");
         ("Accept", "application/json")] 10;
      EvTraceback AttributeError]).
Proof.
  refine (proj1 (non_object_answer_crashes (fun s => s) (fun s => s) list_service
                   "KMPR" _) (JList [JInt 1]) _ _ _);
    reflexivity.
Defined.

Lemma undecodable_body_crashes_witness :
  run (fun s => s) (fun s => s) undecodable_service (Namespace "KMPR" false)
  = (1,
     [EvGet "https://api.weather.gov/stations/KMPR/observations/latest"
        [("User-Agent", "(Weather CLI Tool, contact@example.com)");
         ("Accept", "application/json")] 10;
      EvTraceback ValueError]).
Proof.
  refine (proj1 (undecodable_body_crashes (fun s => s) (fun s => s)
                   undecodable_service "KMPR" false _) _);
    reflexivity.
Defined.

Lemma successful_run_witness :
  run (fun s => s) (fun s => s) observation_service (Namespace "KMPR" false)
  = (0,
     [EvGet "https://api.weather.gov/stations/KMPR/observations/latest"
        [("User-Agent", "(Weather CLI Tool, contact@example.com)");
         ("Accept", "application/json")] 10;
      EvStdout sample_text]).
Proof.
  refine (proj1 (successful_run (fun s => s) (fun s => s) observation_service
                   "KMPR" false sample_observation
                   [EvGet "https://api.weather.gov/stations/KMPR/observations/latest"
                      [("User-Agent", "(Weather CLI Tool, contact@example.com)");
                       ("Accept", "application/json")] 10]
                   sample_text _ _ _ _));
    vm_compute; reflexivity.
Defined.

(** ** The forecast renderer at its edges *)

Lemma code_points_nonempty (c : ascii) (r : string) :
  exists p ps, code_points (String c r) = String c p :: ps.
Proof.
  cbn [code_points].
  destruct (code_points r) as [|p ps]; [eauto|].
  destruct r as [|d r']; [eauto|].
  destruct (is_continuation d); eauto.
Qed.

Section ForecastEdges.

Variable repr_str : string -> string.

Lemma period_block_not_dict (p : json) :
  is_dict p = false -> period_block repr_str p = Raise AttributeError.
Proof. destruct p; try reflexivity; discriminate. Qed.

Lemma mapM_period_block_bad (l : list json) (i : nat) (p : json) :
  nth_error l i = Some p -> is_dict p = false ->
  mapM (period_block repr_str) l = Raise AttributeError.
Proof.
  revert i. induction l as [|a l IH]; intros i Hi Hp.
  - destruct i; discriminate.
  - cbn [mapM]. destruct (is_dict a) eqn:Ha.
    + destruct (period_block_defaults repr_str a Ha) as (b & -> & _).
      destruct i as [|i]; cbn [nth_error] in Hi; [congruence|].
      cbn [bind]. rewrite (IH i Hi Hp). reflexivity.
    + rewrite (period_block_not_dict a Ha). reflexivity.
Qed.

(** X9: the periods are rendered only when they are a non-empty list.
    Any other falsy value of the key (null, 0, an empty string or object)
    gives "No forecast data available" like the empty list, and a truthy
    value that is no list makes the renderer raise, never return a
    forecast. *)
Theorem format_forecast_periods_not_a_list (data periods : json) :
  forecast_periods data = Ok periods ->
  (forall l, periods <> JList l) ->
  (py_truthy periods = false ->
   format_forecast repr_str data = Ok "No forecast data available")
  /\ (py_truthy periods = true ->
      exists e, format_forecast repr_str data = Raise e).
Proof.
  intros Hp Hl. rewrite format_forecast_periods, Hp. cbn [bind].
  split; intros Ht; rewrite Ht; cbn [negb]; [reflexivity|].
  destruct periods as [|b|z|x|s|l|kv]; try discriminate Ht;
    try (eexists; reflexivity).
  - destruct s as [|c r]; [discriminate Ht|].
    cbn [py_take bind].
    destruct (code_points_nonempty c r) as (p & ps & ->).
    change (firstn 14 (String c p :: ps)) with (String c p :: firstn 13 ps).
    unfold concat_all. cbn [fold_right append py_iter].
    destruct (code_points_nonempty c (p ++ fold_right append "" (firstn 13 ps)))
      as (p' & ps' & ->).
    eexists. reflexivity.
  - exfalso. apply (Hl l). reflexivity.
Qed.

(** X10: what follows the fourteenth period has no effect on the
    rendering, whatever it is: two documents whose period lists agree on
    14 or more leading periods render alike. *)
Theorem format_forecast_ignores_later_periods
  (data1 data2 : json) (ps more1 more2 : list json) :
  forecast_periods data1 = Ok (JList (ps ++ more1)) ->
  forecast_periods data2 = Ok (JList (ps ++ more2)) ->
  (14 <= List.length ps)%nat ->
  format_forecast repr_str data1 = format_forecast repr_str data2.
Proof.
  intros H1 H2 Hlen.
  assert (Hne : forall more : list json, (ps ++ more)%list <> [])
    by (intros more; destruct ps; [simpl in Hlen; lia | discriminate]).
  rewrite (format_forecast_list repr_str data1 _ H1 (Hne more1)).
  rewrite (format_forecast_list repr_str data2 _ H2 (Hne more2)).
  rewrite !firstn_app.
  replace (14 - List.length ps)%nat with 0%nat by lia.
  reflexivity.
Qed.

(** X11: a period among the first 14 that is not a JSON object makes the
    renderer raise [AttributeError]; no partial forecast is returned. *)
Theorem format_forecast_bad_period (data : json) (ps : list json) (i : nat) (p : json) :
  forecast_periods data = Ok (JList ps) ->
  nth_error ps i = Some p ->
  (i < 14)%nat ->
  is_dict p = false ->
  format_forecast repr_str data = Raise AttributeError.
Proof.
  intros Hp Hi Hlt Hd.
  assert (Hne : ps <> []) by (destruct ps; [destruct i; discriminate | discriminate]).
  rewrite (format_forecast_list repr_str data ps Hp Hne).
  unfold rendered_periods.
  rewrite (mapM_period_block_bad (firstn 14 ps) i p); [reflexivity| |exact Hd].
  rewrite nth_error_firstn. destruct (Nat.ltb_spec i 14); [exact Hi | lia].
Qed.

End ForecastEdges.

Lemma format_forecast_periods_not_a_list_witness :
  format_forecast (fun s => s) (JObj [("properties", JObj [("periods", JNull)])])
  = Ok "No forecast data available".
Proof.
  refine (proj1 (format_forecast_periods_not_a_list (fun s => s)
                   (JObj [("properties", JObj [("periods", JNull)])]) JNull _ _) _).
  - reflexivity.
  - discriminate.
  - reflexivity.
Defined.

Lemma format_forecast_ignores_later_periods_witness :
  format_forecast (fun s => s) (sample_forecast (repeat (JObj []) 14 ++ [JInt 7]))
  = format_forecast (fun s => s) (sample_forecast (repeat (JObj []) 14 ++ [])).
Proof.
  refine (format_forecast_ignores_later_periods (fun s => s) _ _
            (repeat (JObj []) 14) [JInt 7] [] _ _ _).
  - reflexivity.
  - reflexivity.
  - simpl. lia.
Defined.

Lemma format_forecast_bad_period_witness :
  format_forecast (fun s => s) (sample_forecast [JObj []; JStr "Tonight"])
  = Raise AttributeError.
Proof.
  refine (format_forecast_bad_period (fun s => s) _ [JObj []; JStr "Tonight"]
            1 (JStr "Tonight") _ _ _ _).
  - reflexivity.
  - reflexivity.
  - lia.
  - reflexivity.
Defined.

(** ** What [strip()] leaves of the renderings *)

Lemma string_of_list_ascii_app (l1 l2 : list ascii) :
  string_of_list_ascii (l1 ++ l2)%list
  = string_of_list_ascii l1 ++ string_of_list_ascii l2.
Proof.
  induction l1 as [|a l1 IH]; simpl; [reflexivity | now rewrite IH].
Qed.

Lemma plain_char_bounds (c : ascii) :
  is_plain_char c = true ->
  (nat_of_ascii c < 128)%nat /\ space1 (nat_of_ascii c) = false.
Proof.
  unfold is_plain_char. intros H.
  apply Bool.andb_true_iff in H. destruct H as [H1 H2].
  apply Nat.ltb_lt in H1. apply Bool.negb_true_iff in H2. auto.
Qed.

(** Turns a boolean test on byte codes into arithmetic. *)
Ltac bytes_false :=
  apply Bool.not_true_is_false; intros Hb;
  unfold space2, space3 in Hb;
  repeat first
    [ rewrite Bool.orb_true_iff in Hb
    | rewrite Bool.andb_true_iff in Hb
    | rewrite Nat.eqb_eq in Hb
    | rewrite Nat.leb_le in Hb ];
  lia.

Lemma space2_plain_l (x b : nat) : (x < 128)%nat -> space2 x b = false.
Proof. intros Hx. bytes_false. Qed.

Lemma space2_plain_r (a x : nat) : (x < 128)%nat -> space2 a x = false.
Proof. intros Hx. bytes_false. Qed.

Lemma space3_plain_1 (x b c : nat) : (x < 128)%nat -> space3 x b c = false.
Proof. intros Hx. bytes_false. Qed.

Lemma space3_plain_2 (a x c : nat) : (x < 128)%nat -> space3 a x c = false.
Proof. intros Hx. bytes_false. Qed.

Lemma space3_plain_3 (a b x : nat) : (x < 128)%nat -> space3 a b x = false.
Proof. intros Hx. bytes_false. Qed.

Lemma lstrip_plain (c : ascii) (s : string) :
  is_plain_char c = true -> lstrip (String c s) = String c s.
Proof.
  intros Hc. destruct (plain_char_bounds c Hc) as [Hx Hs].
  cbn [lstrip]. rewrite Hs.
  destruct s as [|b r2]; [reflexivity|].
  rewrite (space2_plain_l _ _ Hx).
  destruct r2 as [|d r3]; [reflexivity|].
  rewrite (space3_plain_1 _ _ _ Hx). reflexivity.
Qed.

(** Scanning from the right never goes past a plain character. *)
Lemma lstrip_rev_keeps (n : nat) :
  forall (l : list ascii) (c : ascii) (r : list ascii),
    (List.length l <= n)%nat ->
    is_plain_char c = true ->
    exists l', lstrip_rev (l ++ c :: r) = (l' ++ c :: r)%list.
Proof.
  induction n as [|n IH]; intros l c r Hlen Hc;
    destruct (plain_char_bounds c Hc) as [Hx Hs].
  - destruct l; [|simpl in Hlen; lia].
    exists []. cbn [app lstrip_rev]. rewrite Hs.
    destruct r as [|b r2]; [reflexivity|].
    rewrite (space2_plain_r _ _ Hx).
    destruct r2 as [|d r3]; [reflexivity|].
    rewrite (space3_plain_3 _ _ _ Hx). reflexivity.
  - destruct l as [|a l1].
    { apply (IH [] c r); [simpl; lia | exact Hc]. }
    cbn [app lstrip_rev].
    destruct (space1 (nat_of_ascii a)).
    { apply IH; [simpl in Hlen; lia | exact Hc]. }
    destruct l1 as [|b l2]; cbn [app].
    { rewrite (space2_plain_l _ _ Hx).
      destruct r as [|d r3].
      - exists [a]. reflexivity.
      - rewrite (space3_plain_2 _ _ _ Hx). exists [a]. reflexivity. }
    destruct (space2 (nat_of_ascii b) (nat_of_ascii a)).
    { apply IH; [simpl in Hlen; lia | exact Hc]. }
    destruct l2 as [|d l3]; cbn [app].
    { rewrite (space3_plain_1 _ _ _ Hx). exists [a; b]. reflexivity. }
    destruct (space3 (nat_of_ascii d) (nat_of_ascii b) (nat_of_ascii a)).
    { apply IH; [simpl in Hlen; lia | exact Hc]. }
    exists (a :: b :: d :: l3). reflexivity.
Qed.

(** [rstrip] keeps everything up to a plain character. *)
Lemma rstrip_keeps_prefix (p : string) (c : ascii) (t : string) :
  is_plain_char c = true ->
  exists t', rstrip (p ++ String c t) = p ++ String c t'.
Proof.
  intros Hc. unfold rstrip.
  rewrite list_ascii_of_string_app. cbn [list_ascii_of_string].
  rewrite rev_app_distr. cbn [rev]. rewrite <- app_assoc. cbn [app].
  destruct (lstrip_rev_keeps _ (rev (list_ascii_of_string t)) c
              (rev (list_ascii_of_string p)) (le_n _) Hc) as (l' & ->).
  rewrite rev_app_distr. cbn [rev]. rewrite rev_involutive, <- app_assoc.
  cbn [app]. rewrite string_of_list_ascii_app, string_of_list_ascii_of_string.
  exists (string_of_list_ascii (rev l')). reflexivity.
Qed.

(** [rstrip] removes a final newline that follows a plain character, and
    nothing else. *)
Lemma rstrip_final_newline (p : string) (c : ascii) :
  is_plain_char c = true ->
  rstrip (p ++ String c nl) = p ++ String c "".
Proof.
  intros Hc. destruct (plain_char_bounds c Hc) as [Hx Hs]. unfold rstrip.
  rewrite list_ascii_of_string_app. cbn [list_ascii_of_string nl].
  rewrite rev_app_distr. cbn [rev app lstrip_rev].
  change (space1 (nat_of_ascii (ascii_of_nat 10))) with true. cbv iota.
  rewrite Hs.
  assert (Hkeep : forall r,
             match r with
             | [] => c :: r
             | b :: r2 =>
                 if space2 (nat_of_ascii b) (nat_of_ascii c) then lstrip_rev r2
                 else
                   match r2 with
                   | [] => c :: r
                   | d :: r3 =>
                       if space3 (nat_of_ascii d) (nat_of_ascii b) (nat_of_ascii c)
                       then lstrip_rev r3
                       else c :: r
                   end
             end = c :: r).
  { intros [|b [|d r3]]; try reflexivity.
    - rewrite (space2_plain_r _ _ Hx). reflexivity.
    - rewrite (space2_plain_r _ _ Hx), (space3_plain_3 _ _ _ Hx). reflexivity. }
  rewrite Hkeep. cbn [rev]. rewrite rev_involutive.
  rewrite string_of_list_ascii_app, string_of_list_ascii_of_string. reflexivity.
Qed.

(** [s] ends with the character [d]. *)
Lemma ends_with_app (a s p : string) (d : ascii) :
  s = p ++ String d "" -> a ++ s = (a ++ p) ++ String d "".
Proof. intros ->. now rewrite append_assoc. Qed.

(** A block framed by two newlines that starts and ends with plain
    characters is what [strip()] returns of it. *)
Lemma strip_framed (c d : ascii) (x p : string) :
  is_plain_char c = true ->
  is_plain_char d = true ->
  String c x = p ++ String d "" ->
  strip (nl ++ String c x ++ nl) = String c x.
Proof.
  intros Hc Hd Hx. unfold strip.
  assert (Hl : lstrip (nl ++ String c x ++ nl) = String c x ++ nl).
  { change (nl ++ String c x ++ nl)
      with (String (ascii_of_nat 10) (String c (x ++ nl))).
    cbn [lstrip].
    change (space1 (nat_of_ascii (ascii_of_nat 10))) with true. cbv iota.
    apply (lstrip_plain c (x ++ nl) Hc). }
  rewrite Hl, Hx, append_assoc.
  change (String d "" ++ nl) with (String d nl).
  apply rstrip_final_newline. exact Hd.
Qed.

(** [strip()] of a text that opens with a newline and a plain character
    keeps it from that character up to any later plain character. *)
Lemma strip_prefix (text p t : string) (c d : ascii) :
  is_plain_char c = true ->
  is_plain_char d = true ->
  (exists x, text = nl ++ String c x /\ String c x = p ++ String d t) ->
  exists t', strip text = p ++ String d t'.
Proof.
  intros Hc Hd (x & -> & Hx). unfold strip.
  assert (Hl : lstrip (nl ++ String c x) = String c x).
  { change (nl ++ String c x) with (String (ascii_of_nat 10) (String c x)).
    cbn [lstrip].
    change (space1 (nat_of_ascii (ascii_of_nat 10))) with true. cbv iota.
    apply (lstrip_plain c x Hc). }
  rewrite Hl, Hx.
  apply rstrip_keeps_prefix. exact Hd.
Qed.

Lemma feels_like_nonempty (properties : json) (s : string) :
  feels_like properties = Ok (Some s) -> nonempty s = true.
Proof.
  unfold feels_like. intros H. bind_inv H. bind_inv H.
  destruct (negb (is_none v)).
  - bind_inv H. bind_inv H. injection H as <-. now apply nonempty_app_r.
  - destruct (negb (is_none v0)); [|discriminate].
    bind_inv H. bind_inv H. injection H as <-. now apply nonempty_app_r.
Qed.

Lemma precip_str_ends_plain (properties : json) (precip_s : string) :
  precip_str properties = Ok precip_s ->
  exists p d, precip_s = p ++ String d "" /\ is_plain_char d = true.
Proof.
  unfold precip_str. intros H. bind_inv H.
  destruct (negb (is_none v)).
  - bind_inv H. injection H as <-.
    exists (v0 ++ " m"), "m"%char. split; [|reflexivity].
    now rewrite append_assoc.
  - injection H as <-. exists "N/", "A"%char. split; reflexivity.
Qed.

Lemma observation_text_lines
  (st ts ds t : string) (fl : option string) (dw wi hu pr vi cl pc : string) :
  match fl with Some s => nonempty s = true | None => True end ->
  observation_text st ts ds t fl dw wi hu pr vi cl pc
  = nl ++ observation_lines st ts ds t fl dw wi hu pr vi cl pc ++ nl.
Proof.
  intros Hfl.
  unfold observation_text, observation_head, observation_tail, observation_lines.
  destruct fl as [s|]; [rewrite Hfl|]; rewrite !append_assoc; reflexivity.
Qed.

Lemma strip_observation_text
  (st ts ds t : string) (fl : option string) (dw wi hu pr vi cl pc p : string)
  (d : ascii) :
  match fl with Some s => nonempty s = true | None => True end ->
  pc = p ++ String d "" ->
  is_plain_char d = true ->
  strip (observation_text st ts ds t fl dw wi hu pr vi cl pc)
  = observation_lines st ts ds t fl dw wi hu pr vi cl pc.
Proof.
  intros Hfl Hpc Hd. rewrite (observation_text_lines _ _ _ _ _ _ _ _ _ _ _ _ Hfl).
  assert (Hend : exists q,
             observation_lines st ts ds t fl dw wi hu pr vi cl pc
             = q ++ String d "").
  { unfold observation_lines. eexists.
    repeat (apply ends_with_app). exact Hpc. }
  destruct Hend as (q & Hq).
  change (observation_lines st ts ds t fl dw wi hu pr vi cl pc)
    with (String "C"
            ("urrent Weather for " ++ st ++ nl
             ++ repeat_str "=" 40 ++ nl
             ++ "Time: " ++ ts ++ nl
             ++ "Conditions: " ++ ds ++ nl
             ++ "Temperature: " ++ t
             ++ match fl with
                | Some s => nl ++ "Feels Like: " ++ s
                | None => ""
                end
             ++ nl ++ "Dewpoint: " ++ dw
             ++ nl ++ "Wind: " ++ wi
             ++ nl ++ "Humidity: " ++ hu
             ++ nl ++ "Pressure: " ++ pr
             ++ nl ++ "Visibility: " ++ vi
             ++ nl ++ "Cloud Layers: " ++ cl
             ++ nl ++ "Precipitation (last hour): " ++ pc)) in *.
  apply (strip_framed "C" d _ q); [reflexivity | exact Hd | exact Hq].
Qed.

Lemma split_last_from_spec (sep : ascii) (s cur : string) :
  (split_last_from sep cur s = cur /\ char_free sep s)
  \/ (exists pre,
        s = pre ++ String sep (split_last_from sep cur s)
        /\ char_free sep (split_last_from sep cur s)).
Proof.
  revert cur. induction s as [|c t IH]; intros cur; cbn [split_last_from].
  - left. split; [reflexivity | intros []].
  - destruct (Ascii.eqb_spec c sep) as [->|Hne].
    + right. destruct (IH t) as [[Hr Hfree] | (pre & Ht & Hfree)].
      * exists "". rewrite Hr. split; [reflexivity | exact Hfree].
      * exists (String sep pre). split; [cbn [append]; now rewrite <- Ht | exact Hfree].
    + destruct (IH cur) as [[Hr Hfree] | (pre & Ht & Hfree)].
      * left. split; [exact Hr|].
        intros [Heq | Hin]; [congruence | exact (Hfree Hin)].
      * right. exists (String c pre).
        split; [cbn [append]; now rewrite <- Ht | exact Hfree].
Qed.

Section LayoutProperties.

Variable repr_str : string -> string.

(** The pieces of a successful rendering and the text they make up. *)
Lemma format_current_weather_lines (data : json) (out : string) :
  format_current_weather repr_str data = Ok out ->
  exists props station_ref station timestamp description fl
         temp_s wind_s humidity_s dewpoint_s pressure_s visibility_s cloud_s precip_s,
    py_get data "properties" (JObj []) = Ok props
    /\ py_get props "station" (JStr "Unknown") = Ok station_ref
    /\ py_split_last station_ref "/" = Ok station
    /\ py_get props "timestamp" (JStr "Unknown") = Ok timestamp
    /\ py_get props "textDescription" (JStr "N/A") = Ok description
    /\ temperature_str props = Ok temp_s
    /\ wind_str repr_str props = Ok wind_s
    /\ humidity_str props = Ok humidity_s
    /\ dewpoint_str props = Ok dewpoint_s
    /\ pressure_str props = Ok pressure_s
    /\ visibility_str props = Ok visibility_s
    /\ feels_like props = Ok fl
    /\ cloud_str repr_str props = Ok cloud_s
    /\ precip_str props = Ok precip_s
    /\ out = observation_lines station (py_str repr_str timestamp)
               (py_str repr_str description) temp_s fl dewpoint_s wind_s
               humidity_s pressure_s visibility_s cloud_s precip_s.
Proof.
  intros Hout.
  destruct (format_current_weather_inv repr_str data out Hout)
    as (props & sr & st & ts & ds & fl & t & wi & hu & dw & pr & vi & cl & pc
        & H1 & H2 & H3 & H4 & H5 & H6 & H7 & H8 & H9 & H10 & H11 & H12 & H13
        & H14 & ->).
  exists props, sr, st, ts, ds, fl, t, wi, hu, dw, pr, vi, cl, pc.
  repeat (split; [assumption|]).
  destruct (precip_str_ends_plain props pc H14) as (p & d & Hpc & Hd).
  apply (strip_observation_text _ _ _ _ _ _ _ _ _ _ _ _ p d); [|exact Hpc|exact Hd].
  destruct fl as [s|]; [|exact I]. apply (feels_like_nonempty props s H12).
Qed.

(** X12: a rendered observation is exactly its lines in their fixed order:
    header with the station, divider of 40 "=", time, conditions,
    temperature, the feels-like line when there is one, dewpoint, wind,
    humidity, pressure, visibility, cloud layers and precipitation, each
    with the text its formatter returned.  [strip()] removes the newline
    that opens the block and the one that closes it, and nothing of the
    lines. *)
Theorem format_current_weather_layout (data props : json) (out : string) :
  py_get data "properties" (JObj []) = Ok props ->
  format_current_weather repr_str data = Ok out ->
  exists station timestamp description fl
         temp_s wind_s humidity_s dewpoint_s pressure_s visibility_s cloud_s precip_s,
    temperature_str props = Ok temp_s
    /\ wind_str repr_str props = Ok wind_s
    /\ humidity_str props = Ok humidity_s
    /\ dewpoint_str props = Ok dewpoint_s
    /\ pressure_str props = Ok pressure_s
    /\ visibility_str props = Ok visibility_s
    /\ feels_like props = Ok fl
    /\ cloud_str repr_str props = Ok cloud_s
    /\ precip_str props = Ok precip_s
    /\ out = "Current Weather for " ++ station ++ nl
             ++ repeat_str "=" 40 ++ nl
             ++ "Time: " ++ timestamp ++ nl
             ++ "Conditions: " ++ description ++ nl
             ++ "Temperature: " ++ temp_s
             ++ match fl with
                | Some s => nl ++ "Feels Like: " ++ s
                | None => ""
                end
             ++ nl ++ "Dewpoint: " ++ dewpoint_s
             ++ nl ++ "Wind: " ++ wind_s
             ++ nl ++ "Humidity: " ++ humidity_s
             ++ nl ++ "Pressure: " ++ pressure_s
             ++ nl ++ "Visibility: " ++ visibility_s
             ++ nl ++ "Cloud Layers: " ++ cloud_s
             ++ nl ++ "Precipitation (last hour): " ++ precip_s.
Proof.
  intros Hprops Hout.
  destruct (format_current_weather_lines data out Hout)
    as (props' & sr & st & ts & ds & fl & t & wi & hu & dw & pr & vi & cl & pc
        & H1 & H2 & H3 & H4 & H5 & H6 & H7 & H8 & H9 & H10 & H11 & H12 & H13
        & H14 & ->).
  assert (props' = props) by congruence. subst props'.
  exists st, (py_str repr_str ts), (py_str repr_str ds), fl, t, wi, hu, dw, pr, vi, cl, pc.
  repeat (split; [assumption|]). reflexivity.
Qed.

(** X13: the header of a rendered observation shows the station reference
    from its last "/" on: the text shown holds no "/", and it is the whole
    reference or what follows a "/" in it. *)
Theorem station_shown_is_last_segment (data props : json) (ref out : string) :
  py_get data "properties" (JObj []) = Ok props ->
  py_get props "station" (JStr "Unknown") = Ok (JStr ref) ->
  format_current_weather repr_str data = Ok out ->
  exists station rest,
    out = "Current Weather for " ++ station ++ nl ++ rest
    /\ char_free "/" station
    /\ (ref = station \/ exists pre, ref = pre ++ "/" ++ station).
Proof.
  intros Hprops Href Hout.
  destruct (format_current_weather_lines data out Hout)
    as (props' & sr & st & ts & ds & fl & t & wi & hu & dw & pr & vi & cl & pc
        & H1 & H2 & H3 & _ & _ & _ & _ & _ & _ & _ & _ & _ & _ & _ & ->).
  assert (props' = props) by congruence. subst props'.
  assert (sr = JStr ref) by congruence. subst sr.
  cbn [py_split_last] in H3. injection H3 as <-.
  exists (split_last "/" ref). eexists. split; [reflexivity|].
  unfold split_last.
  destruct (split_last_from_spec "/" ref ref) as [[Hr Hfree] | (pre & Hs & Hfree)].
  - rewrite Hr. split; [exact Hfree | left; reflexivity].
  - split; [exact Hfree | right; exists pre; exact Hs].
Qed.

(** X14: a rendered forecast starts with the line "Weather Forecast", the
    divider of 40 "=", an empty line and the name line of the first
    period, a missing name being shown as "Unknown". *)
Theorem format_forecast_starts_with_header
  (data first : json) (ps : list json) (out : string) :
  forecast_periods data = Ok (JList (first :: ps)) ->
  format_forecast repr_str data = Ok out ->
  exists fields name rest,
    first = JObj fields
    /\ shown_field repr_str fields "name" "Unknown" name
    /\ out = "Weather Forecast" ++ nl ++ repeat_str "=" 40 ++ nl ++ nl
             ++ name ++ ":" ++ rest.
Proof.
  intros Hp Hout.
  rewrite (format_forecast_list repr_str data _ Hp) in Hout by discriminate.
  unfold rendered_periods in Hout.
  apply bind_Ok_inv in Hout. destruct Hout as (blocks & Hb & Hout).
  injection Hout as <-.
  change (firstn 14 (first :: ps)) with (first :: firstn 13 ps) in Hb.
  cbn [mapM] in Hb.
  apply bind_Ok_inv in Hb. destruct Hb as (b & Hb1 & Hb).
  apply bind_Ok_inv in Hb. destruct Hb as (bs & _ & Hb). injection Hb as <-.
  assert (Hd : is_dict first = true)
    by (destruct first; try discriminate Hb1; reflexivity).
  destruct (period_block_defaults repr_str first Hd)
    as (b' & Hb' & fields & name & temp & temp_unit & short & rest
        & -> & -> & Hname & _).
  assert (b = name ++ ":" ++ nl ++ "  Temperature: " ++ temp ++ "°" ++ temp_unit
              ++ nl ++ "  " ++ short ++ nl ++ rest) by congruence.
  subst b. clear Hb' Hb1.
  exists fields, name.
  destruct (strip_prefix
              (forecast_header
               ++ concat_all
                    ((name ++ ":" ++ nl ++ "  Temperature: " ++ temp ++ "°"
                      ++ temp_unit ++ nl ++ "  " ++ short ++ nl ++ rest) :: bs))
              ("Weather Forecast" ++ nl ++ repeat_str "=" 40 ++ nl ++ nl ++ name)
              ((nl ++ "  Temperature: " ++ temp ++ "°" ++ temp_unit ++ nl
                ++ "  " ++ short ++ nl ++ rest) ++ concat_all bs)
              "W" ":") as (t' & Ht'); try reflexivity.
  { eexists. split; [reflexivity|].
    unfold concat_all. cbn [fold_right].
    rewrite !append_assoc. reflexivity. }
  exists t'. split; [reflexivity|]. split; [exact Hname|].
  etransitivity; [exact Ht'|]. now rewrite !append_assoc.
Qed.

End LayoutProperties.

Lemma format_current_weather_layout_witness :
  exists station timestamp description fl
         temp_s wind_s humidity_s dewpoint_s pressure_s visibility_s cloud_s precip_s,
    sample_text
    = observation_lines station timestamp description temp_s fl dewpoint_s wind_s
        humidity_s pressure_s visibility_s cloud_s precip_s.
Proof.
  assert (H : format_current_weather (fun s => s) sample_observation = Ok sample_text)
    by (vm_compute; reflexivity).
  destruct (format_current_weather_layout (fun s => s) sample_observation
              sample_properties sample_text eq_refl H)
    as (st & ts & ds & fl & t & wi & hu & dw & pr & vi & cl & pc
        & _ & _ & _ & _ & _ & _ & _ & _ & _ & Heq).
  exists st, ts, ds, fl, t, wi, hu, dw, pr, vi, cl, pc. exact Heq.
Defined.

Lemma station_shown_is_last_segment_witness :
  exists station rest,
    sample_text = "Current Weather for " ++ station ++ nl ++ rest
    /\ char_free "/" station
    /\ ("https://api.weather.gov/stations/KMPR" = station
        \/ exists pre, "https://api.weather.gov/stations/KMPR" = pre ++ "/" ++ station).
Proof.
  refine (station_shown_is_last_segment (fun s => s) sample_observation
            sample_properties "https://api.weather.gov/stations/KMPR" sample_text
            _ _ _).
  - reflexivity.
  - reflexivity.
  - vm_compute. reflexivity.
Defined.

Lemma format_forecast_starts_with_header_witness :
  exists fields name rest,
    JObj [] = JObj fields
    /\ shown_field (fun s => s) fields "name" "Unknown" name
    /\ sample_forecast_text
       = "Weather Forecast" ++ nl ++ repeat_str "=" 40 ++ nl ++ nl
         ++ name ++ ":" ++ rest.
Proof.
  refine (format_forecast_starts_with_header (fun s => s)
            (sample_forecast sample_periods) (JObj []) (tl sample_periods)
            sample_forecast_text _ _).
  - reflexivity.
  - vm_compute. reflexivity.
Defined.

(** ** The numbers shown *)

Lemma all_from_spec (f : Z -> bool) (n : nat) :
  forall lo, all_from f lo n = true ->
  forall z, lo <= z < lo + Z.of_nat n -> f z = true.
Proof.
  induction n as [|n IH]; intros lo H z Hz.
  - lia.
  - cbn [all_from] in H. apply Bool.andb_true_iff in H. destruct H as [H0 H1].
    destruct (Z.eq_dec z lo) as [->|Hne]; [exact H0|].
    apply (IH (lo + 1) H1). lia.
Qed.

Lemma fahrenheit_exact_range : all_from fahrenheit_exact (-1000) 2001 = true.
Proof. vm_compute. reflexivity. Qed.

Lemma int_one_decimal_range : all_from int_one_decimal (-1000) 2001 = true.
Proof. vm_compute. reflexivity. Qed.

(** X15: for a whole number of degrees Celsius between -1000 and 1000 the
    rounding of the floating-point conversion never shows: the temperature
    line is the exact value of 9c/5 + 32 with its one decimal, followed by
    the Celsius value with ".0". *)
Theorem temperature_str_integer_celsius
  (properties temp : json) (unit_code : string) (c : Z) :
  py_get properties "temperature" (JObj []) = Ok temp ->
  py_get temp "value" JNull = Ok (JInt c) ->
  py_get temp "unitCode" (JStr "") = Ok (JStr unit_code) ->
  split_last ":" unit_code = "degC" ->
  -1000 <= c <= 1000 ->
  temperature_str properties
  = Ok (tenths_text (18 * c + 320) ++ "°F (" ++ str_of_Z c ++ ".0°C)").
Proof.
  intros Ht Hv Hu Hs Hc.
  pose proof (all_from_spec _ _ _ fahrenheit_exact_range c ltac:(lia)) as Hf.
  pose proof (all_from_spec _ _ _ int_one_decimal_range c ltac:(lia)) as Hi.
  unfold fahrenheit_exact in Hf. unfold int_one_decimal in Hi.
  unfold temperature_str. rewrite Ht. cbn [bind]. rewrite Hv, Hu. cbn [bind py_split_last].
  rewrite Hs. cbn [is_none negb andb String.eqb Ascii.eqb Bool.eqb].
  destruct (to_fahrenheit (JInt c)) as [f|e]; [|discriminate Hf].
  cbn [bind] in Hf |- *.
  destruct (num_format_f 1 f) as [sf|e]; [|discriminate Hf].
  destruct (py_format_f 1 (JInt c)) as [sc|e]; [|discriminate Hi].
  apply String.eqb_eq in Hf. apply String.eqb_eq in Hi. subst sf sc.
  cbn [bind]. now rewrite !append_assoc.
Qed.

Lemma temperature_str_integer_celsius_witness :
  temperature_str sample_properties = Ok "32.0°F (0.0°C)".
Proof.
  refine (temperature_str_integer_celsius sample_properties
            (JObj [("unitCode", JStr "wmoUnit:degC"); ("value", JInt 0)])
            "wmoUnit:degC" 0 _ _ _ _ _).
  - reflexivity.
  - reflexivity.
  - reflexivity.
  - reflexivity.
  - lia.
Defined.

(** ** Integers and floats that do not overflow *)

Lemma digits2_pos_size (p : positive) : digits2_pos p = Pos.size p.
Proof. induction p; simpl; congruence. Qed.

Lemma Zdigits2_log2 (z : Z) : 0 < z -> Zdigits2 z = Z.log2 z + 1.
Proof.
  destruct z as [|p|p]; try lia. intros _.
  destruct p as [p|p|]; cbn [Zdigits2 digits2_pos Z.log2];
    rewrite ?digits2_pos_size; lia.
Qed.

Lemma Zdigits2_nonneg (z : Z) : 0 <= Zdigits2 z.
Proof. destruct z; simpl; lia. Qed.

Lemma Zdigits2_le (a b : Z) : 0 <= a <= b -> Zdigits2 a <= Zdigits2 b.
Proof.
  intros [Ha Hab].
  destruct (Z.eq_dec a 0) as [->|Hne]; [apply Zdigits2_nonneg|].
  rewrite !Zdigits2_log2 by lia.
  pose proof (Z.log2_le_mono a b Hab). lia.
Qed.

Lemma Zdigits2_succ (a : Z) : 0 <= a -> Zdigits2 (a + 1) <= Zdigits2 a + 1.
Proof.
  intros Ha.
  destruct (Z.eq_dec a 0) as [->|Hne]; [simpl; lia|].
  rewrite !Zdigits2_log2 by lia.
  pose proof (Z.log2_succ_le a). unfold Z.succ in *. lia.
Qed.

Lemma Zdigits2_shiftr (a n : Z) :
  0 <= a -> 0 <= n -> Zdigits2 (a / 2 ^ n) + n <= Z.max n (Zdigits2 a).
Proof.
  intros Ha Hn.
  assert (Hq : 0 <= a / 2 ^ n) by (apply Z.div_pos; [lia | apply Z.pow_pos_nonneg; lia]).
  destruct (Z.eq_dec (a / 2 ^ n) 0) as [->|Hne]; [simpl; lia|].
  assert (0 < a) by (destruct (Z.eq_dec a 0) as [->|]; [rewrite Z.div_0_l in Hne by (apply Z.pow_nonzero; lia); lia | lia]).
  assert (Hge : n <= Z.log2 a).
  { assert (H2 : 0 < 2 ^ n) by (apply Z.pow_pos_nonneg; lia).
    assert (2 ^ n <= a).
    { destruct (Z.lt_ge_cases a (2 ^ n)) as [Hlt|]; [|assumption].
      rewrite Z.div_small in Hne by lia. lia. }
    rewrite <- (Z.log2_pow2 n Hn). now apply Z.log2_le_mono. }
  rewrite !Zdigits2_log2 by lia.
  rewrite <- Z.shiftr_div_pow2 by lia.
  rewrite Z.log2_shiftr by lia. lia.
Qed.

Lemma shr_1_m (mrs : shr_record) :
  0 <= shr_m mrs -> shr_m (shr_1 mrs) = shr_m mrs / 2.
Proof.
  destruct mrs as [m r s]. cbn [shr_m]. intros Hm.
  destruct m as [|p|p]; [reflexivity| |lia].
  destruct p as [p|p|]; cbn [shr_1 shr_m].
  - rewrite Pos2Z.inj_xI. apply Z.div_unique with 1; lia.
  - rewrite Pos2Z.inj_xO. apply Z.div_unique with 0; lia.
  - reflexivity.
Qed.

Lemma iter_pos_shr_1_m (n : positive) :
  forall mrs, 0 <= shr_m mrs ->
  shr_m (iter_pos shr_1 n mrs) = shr_m mrs / 2 ^ Zpos n.
Proof.
  induction n as [n IH|n IH|]; intros mrs Hm; cbn [iter_pos].
  - assert (Hp : 0 < 2 ^ Zpos n) by (apply Z.pow_pos_nonneg; lia).
    assert (Hpow : 2 ^ Zpos n~1 = 2 * 2 ^ Zpos n * 2 ^ Zpos n).
    { replace (Zpos n~1) with (1 + Zpos n + Zpos n) by lia.
      rewrite !Z.pow_add_r by lia. reflexivity. }
    assert (H1 : 0 <= shr_m (shr_1 mrs))
      by (rewrite shr_1_m by lia; apply Z.div_pos; lia).
    assert (H2 : 0 <= shr_m (iter_pos shr_1 n (shr_1 mrs)))
      by (rewrite IH by lia; apply Z.div_pos; lia).
    rewrite IH, IH, shr_1_m, Hpow by lia.
    rewrite !Z.div_div by lia. f_equal. lia.
  - assert (Hp : 0 < 2 ^ Zpos n) by (apply Z.pow_pos_nonneg; lia).
    assert (Hpow : 2 ^ Zpos n~0 = 2 ^ Zpos n * 2 ^ Zpos n).
    { replace (Zpos n~0) with (Zpos n + Zpos n) by lia.
      rewrite !Z.pow_add_r by lia. reflexivity. }
    assert (H2 : 0 <= shr_m (iter_pos shr_1 n mrs))
      by (rewrite IH by lia; apply Z.div_pos; lia).
    rewrite IH, IH, Hpow by lia.
    rewrite !Z.div_div by lia. f_equal.
  - rewrite shr_1_m by lia. reflexivity.
Qed.

Lemma shr_record_of_loc_m (m : Z) (l : location) : shr_m (shr_record_of_loc m l) = m.
Proof. destruct l as [|[]]; reflexivity. Qed.

(** One rounding step: the exponent reached and a bound on the mantissa. *)
Lemma shr_fexp_bounds (m e : Z) (l : location) :
  0 <= m ->
  let r := shr_fexp prec emax m e l in
  0 <= shr_m (fst r) <= m
  /\ snd r = Z.max e (fexp prec emax (Zdigits2 m + e))
  /\ Zdigits2 (shr_m (fst r)) + snd r <= Z.max (snd r) (Zdigits2 m + e).
Proof.
  intros Hm. cbv zeta. unfold shr_fexp, shr.
  set (n := fexp prec emax (Zdigits2 m + e) - e).
  destruct n as [|p|p] eqn:En; cbn [fst snd]; rewrite ?shr_record_of_loc_m.
  - repeat split; try lia.
  - rewrite iter_pos_shr_1_m by (rewrite shr_record_of_loc_m; lia).
    rewrite shr_record_of_loc_m.
    assert (H2 : 0 < 2 ^ Zpos p) by (apply Z.pow_pos_nonneg; lia).
    pose proof (Zdigits2_shiftr m (Zpos p) Hm ltac:(lia)).
    repeat split; try lia.
    + apply Z.div_pos; lia.
    + apply Z.div_le_upper_bound; nia.
  - repeat split; try lia.
Qed.

Lemma round_nearest_even_bounds (m : Z) (l : location) :
  m <= round_nearest_even m l <= m + 1.
Proof.
  unfold round_nearest_even.
  destruct l as [|[]]; try destruct (Z.even m); lia.
Qed.

Lemma fexp_eq (x : Z) : fexp prec emax x = Z.max (x - 53) (-1074).
Proof. reflexivity. Qed.

(** Rounding a mantissa of at most 1022 binary digits (exponent counted)
    never overflows. *)
Lemma binary_round_aux_finite (s : bool) (m e : Z) (l : location) :
  0 <= m -> Zdigits2 m + e <= 1022 -> e <= 970 ->
  is_infinite (binary_round_aux prec emax s m e l) = false.
Proof.
  intros Hm Hd He. unfold binary_round_aux.
  pose proof (shr_fexp_bounds m e l Hm) as B1. cbv zeta in B1.
  destruct (shr_fexp prec emax m e l) as [mrs1 e1]. cbn [fst snd] in B1.
  destruct B1 as (Hm1 & He1 & Hd1).
  pose proof (round_nearest_even_bounds (shr_m mrs1) (loc_of_shr_record mrs1)) as Hr.
  set (m2 := round_nearest_even (shr_m mrs1) (loc_of_shr_record mrs1)) in *.
  pose proof (shr_fexp_bounds m2 e1 loc_Exact ltac:(lia)) as B2. cbv zeta in B2.
  destruct (shr_fexp prec emax m2 e1 loc_Exact) as [mrs2 e2]. cbn [fst snd] in B2.
  destruct B2 as (Hm2 & He2 & _).
  rewrite fexp_eq in He1, He2.
  assert (Hd2 : Zdigits2 m2 <= Zdigits2 (shr_m mrs1) + 1).
  { etransitivity; [apply (Zdigits2_le m2 (shr_m mrs1 + 1)); lia|].
    apply Zdigits2_succ. lia. }
  destruct (shr_m mrs2) as [|p|p]; try reflexivity.
  replace (e2 <=? emax - prec) with true; [reflexivity|].
  symmetry. apply Z.leb_le. unfold emax, prec. lia.
Qed.

Lemma digits2_pos_iter_xO (m d : positive) :
  Zpos (digits2_pos (Pos.iter xO m d)) = Zpos (digits2_pos m) + Zpos d.
Proof.
  induction d as [|d IH] using Pos.peano_ind.
  - cbn [Pos.iter digits2_pos]. lia.
  - rewrite Pos.iter_succ. cbn [digits2_pos]. lia.
Qed.

Lemma of_Z_finite (z : Z) : Z.abs z < 2 ^ 1000 -> is_infinite (of_Z z) = false.
Proof.
  intros Hz. unfold of_Z, binary_normalize.
  assert (Hdig : forall p, Zpos p < 2 ^ 1000 -> Zpos (digits2_pos p) <= 1000).
  { intros p Hp. change (Zpos (digits2_pos p)) with (Zdigits2 (Zpos p)).
    rewrite Zdigits2_log2 by lia.
    apply (Z.log2_lt_pow2 (Zpos p) 1000) in Hp; lia. }
  assert (Hround : forall s p, Zpos p < 2 ^ 1000 ->
             is_infinite (binary_round prec emax s p 0) = false).
  { intros s p Hp. specialize (Hdig p Hp). unfold binary_round, shl_align.
    rewrite fexp_eq.
    destruct (Z.max (Zpos (digits2_pos p) + 0 - 53) (-1074) - 0) as [|d|d] eqn:Ed.
    - apply binary_round_aux_finite; cbn [Zdigits2]; lia.
    - apply binary_round_aux_finite; cbn [Zdigits2]; lia.
    - apply binary_round_aux_finite; cbn [Zdigits2];
        rewrite ?digits2_pos_iter_xO; lia. }
  destruct z as [|p|p]; [reflexivity| |]; apply Hround; lia.
Qed.

Lemma Z_div_finite (a b : Z) :
  Z.abs a < 2 ^ 1000 -> b <> 0 -> is_infinite (Z_div a b) = false.
Proof.
  intros Ha Hb. unfold Z_div, fdiv.
  assert (Hcore : forall s pa pb, Zpos pa < 2 ^ 1000 ->
             is_infinite
               (let '(mz, ez, lz) :=
                  SFdiv_core_binary prec emax (Zpos pa) 0 (Zpos pb) 0 in
                binary_round_aux prec emax s mz ez lz) = false).
  { intros s pa pb Hpa. unfold SFdiv_core_binary.
    assert (Hd1 : Zdigits2 (Zpos pa) <= 1000).
    { rewrite Zdigits2_log2 by lia.
      apply (Z.log2_lt_pow2 (Zpos pa) 1000) in Hpa; lia. }
    rewrite fexp_eq.
    set (d1 := Zdigits2 (Zpos pa)) in *. set (d2 := Zdigits2 (Zpos pb)).
    set (e' := Z.min (Z.max (d1 + 0 - (d2 + 0) - 53) (-1074)) (0 - 0)).
    set (sh := 0 - 0 - e').
    set (m' := match sh with
               | 0 => Zpos pa
               | Zpos _ => Z.shiftl (Zpos pa) sh
               | Zneg _ => 0
               end).
    assert (Hm' : 0 <= m' /\ Zdigits2 m' + e' <= d1).
    { subst m'. destruct sh as [|p|p] eqn:Es.
      - subst sh. split; [lia|]. fold d1. lia.
      - assert (Hsh : 0 < Z.shiftl (Zpos pa) (Zpos p))
          by (rewrite Z.shiftl_mul_pow2 by lia;
              apply Z.mul_pos_pos; [lia | apply Z.pow_pos_nonneg; lia]).
        split; [lia|].
        rewrite Zdigits2_log2 by lia.
        rewrite Z.log2_shiftl by lia.
        subst d1. rewrite Zdigits2_log2 by lia. subst sh. lia.
      - split; [lia|]. cbn [Zdigits2]. subst sh. lia. }
    destruct Hm' as [Hm0 Hm1].
    pose proof (Z.div_eucl_eq m' (Zpos pb) ltac:(lia)) as Heq.
    pose proof (Z.mod_pos_bound m' (Zpos pb) ltac:(lia)) as Hmod.
    unfold Z.modulo in Hmod.
    destruct (Z.div_eucl m' (Zpos pb)) as [q r].
    assert (Hq : 0 <= q <= m') by nia.
    apply binary_round_aux_finite; [lia| |subst e'; lia].
    pose proof (Zdigits2_le q m' Hq). lia. }
  destruct a as [|pa|pa], b as [|pb|pb]; try reflexivity; try contradiction;
    cbn [finite_of_Z SFdiv]; apply Hcore; lia.
Qed.

Lemma small_int_bound (z : Z) : Z.abs z <= 10 ^ 300 -> Z.abs (z * 9) < 2 ^ 1000.
Proof.
  intros H. assert (9 * 10 ^ 300 < 2 ^ 1000) by (vm_compute; reflexivity). lia.
Qed.

Lemma int_to_float_ok (z : Z) :
  Z.abs z <= 10 ^ 300 -> int_to_float z = Ok (of_Z z).
Proof.
  intros H. unfold int_to_float. rewrite of_Z_finite; [reflexivity|].
  pose proof (small_int_bound z H). lia.
Qed.

Lemma as_num_ok (v : json) :
  number_ok v = true -> is_none v = false ->
  exists n, as_num v = Ok n
            /\ match n with NInt z => Z.abs z <= 10 ^ 300 | NFloat _ => True end.
Proof.
  destruct v as [|b|z|x|s|l|kv]; try discriminate; intros Hok _.
  - exists (NInt (if b then 1 else 0)). split; [reflexivity|]. destruct b; vm_compute; discriminate.
  - exists (NInt z). split; [reflexivity|]. now apply Z.leb_le.
  - exists (NFloat x). split; [reflexivity | exact I].
Qed.

Lemma num_to_float_ok (n : num) :
  match n with NInt z => Z.abs z <= 10 ^ 300 | NFloat _ => True end ->
  exists x, num_to_float n = Ok x.
Proof.
  destruct n as [z|x]; intros H; cbn [num_to_float].
  - rewrite (int_to_float_ok z H). eauto.
  - eauto.
Qed.

Lemma to_fahrenheit_ok (v : json) :
  number_ok v = true -> is_none v = false ->
  exists q, to_fahrenheit v = Ok (NFloat q).
Proof.
  intros Hok Hn. destruct (as_num_ok v Hok Hn) as (n & Hn' & Hb).
  unfold to_fahrenheit. rewrite Hn'. cbn [bind].
  destruct n as [z|x].
  - cbn [num_mul bind num_truediv].
    change (5 =? 0) with false. cbv iota.
    rewrite (Z_div_finite (z * 9) 5 (small_int_bound z Hb)) by discriminate.
    cbn [num_add bind num_to_float]. eexists. reflexivity.
  - cbn [num_mul bind num_to_float]. eexists. reflexivity.
Qed.

Lemma py_format_f_ok (d : nat) (v : json) :
  number_ok v = true -> is_none v = false -> exists s, py_format_f d v = Ok s.
Proof.
  intros Hok Hn. destruct v as [|b|z|x|s|l|kv]; try discriminate.
  - destruct b; eexists; reflexivity.
  - unfold py_format_f, num_format_f, num_to_float.
    apply Z.leb_le in Hok. rewrite (int_to_float_ok z Hok). eexists. reflexivity.
  - eexists. reflexivity.
Qed.

Lemma field_value_ok (ok : json -> bool) (kv : list (string * json)) (k : string) :
  field_ok ok kv k = true ->
  exists v, field_value (JObj kv) k = Ok v /\ (is_none v = true \/ ok v = true).
Proof.
  unfold field_ok, field_value. cbn [py_get bind].
  destruct (lookup k kv) as [[| | | | | |f]|]; try discriminate.
  - cbn [py_get]. destruct (lookup "value" f) as [v|]; intros H.
    + exists v. auto.
    + exists JNull. auto.
  - intros _. exists JNull. auto.
Qed.

Lemma measurement_str_ok (d : nat) (suffix : string) (kv : list (string * json))
  (k : string) :
  field_ok number_ok kv k = true ->
  exists s,
    (v <- field_value (JObj kv) k ;;
     if negb (is_none v) then sp <- py_format_f d v ;; Ok (sp ++ suffix)
     else Ok "N/A") = Ok s.
Proof.
  intros H. destruct (field_value_ok _ _ _ H) as (v & -> & Hv). cbn [bind].
  destruct (is_none v) eqn:Hn; cbn [negb]; [eauto|].
  destruct Hv as [Hv|Hv]; [discriminate|].
  destruct (py_format_f_ok d v Hv Hn) as (s & ->). cbn [bind]. eauto.
Qed.

Lemma humidity_str_ok (kv : list (string * json)) :
  field_ok number_ok kv "relativeHumidity" = true ->
  exists s, humidity_str (JObj kv) = Ok s.
Proof. apply (measurement_str_ok 0 "%"). Qed.

Lemma precip_str_ok (kv : list (string * json)) :
  field_ok number_ok kv "precipitationLastHour" = true ->
  exists s, precip_str (JObj kv) = Ok s.
Proof. apply (measurement_str_ok 2 " mm"). Qed.

Lemma dewpoint_str_ok (kv : list (string * json)) :
  field_ok number_ok kv "dewpoint" = true ->
  exists s, dewpoint_str (JObj kv) = Ok s.
Proof.
  intros H. unfold dewpoint_str.
  destruct (field_value_ok _ _ _ H) as (v & -> & Hv). cbn [bind].
  destruct (is_none v) eqn:Hn; cbn [negb]; [eauto|].
  destruct Hv as [Hv|Hv]; [discriminate|].
  destruct (to_fahrenheit_ok v Hv Hn) as (q & ->).
  destruct (py_format_f_ok 1 v Hv Hn) as (s & Hs).
  cbn [bind num_format_f num_to_float]. rewrite Hs. cbn [bind]. eauto.
Qed.

Lemma feels_like_ok (kv : list (string * json)) :
  field_ok number_ok kv "windChill" = true ->
  field_ok number_ok kv "heatIndex" = true ->
  exists fl, feels_like (JObj kv) = Ok fl.
Proof.
  intros Hw Hh. unfold feels_like.
  destruct (field_value_ok _ _ _ Hw) as (wc & -> & Hwc).
  destruct (field_value_ok _ _ _ Hh) as (hi & -> & Hhi). cbn [bind].
  destruct (is_none wc) eqn:Hn; cbn [negb].
  - destruct (is_none hi) eqn:Hn'; cbn [negb]; [eauto|].
    destruct Hhi as [Hhi|Hhi]; [discriminate|].
    destruct (to_fahrenheit_ok hi Hhi Hn') as (q & ->).
    cbn [bind num_format_f num_to_float]. eauto.
  - destruct Hwc as [Hwc|Hwc]; [discriminate|].
    destruct (to_fahrenheit_ok wc Hwc Hn) as (q & ->).
    cbn [bind num_format_f num_to_float]. eauto.
Qed.

Lemma pressure_str_ok (kv : list (string * json)) :
  field_ok number_ok kv "barometricPressure" = true ->
  exists s, pressure_str (JObj kv) = Ok s.
Proof.
  intros H. unfold pressure_str.
  destruct (field_value_ok _ _ _ H) as (v & -> & Hv). cbn [bind].
  destruct (is_none v) eqn:Hn; cbn [negb]; [eauto|].
  destruct Hv as [Hv|Hv]; [discriminate|].
  destruct (as_num_ok v Hv Hn) as (n & -> & Hb). cbn [bind].
  destruct n as [z|x].
  - cbn [num_truediv]. change (100 =? 0) with false. cbv iota.
    rewrite (Z_div_finite z 100) by (pose proof (small_int_bound z Hb); lia).
    cbn [bind num_format_f num_to_float]. eauto.
  - eexists. reflexivity.
Qed.

Lemma visibility_str_ok (kv : list (string * json)) :
  field_ok number_ok kv "visibility" = true ->
  exists s, visibility_str (JObj kv) = Ok s.
Proof.
  intros H. unfold visibility_str.
  destruct (field_value_ok _ _ _ H) as (v & -> & Hv). cbn [bind].
  destruct (is_none v) eqn:Hn; cbn [negb]; [eauto|].
  destruct Hv as [Hv|Hv]; [discriminate|].
  destruct (as_num_ok v Hv Hn) as (n & -> & Hb). cbn [bind].
  destruct n as [z|x].
  - cbn [num_truediv num_to_float bind]. rewrite (int_to_float_ok z Hb).
    eexists. reflexivity.
  - eexists. reflexivity.
Qed.

Lemma wind_str_ok (repr_str : string -> string) (kv : list (string * json)) :
  field_ok number_ok kv "windSpeed" = true ->
  field_ok (fun _ => true) kv "windDirection" = true ->
  exists s, wind_str repr_str (JObj kv) = Ok s.
Proof.
  intros Hs Hd. unfold wind_str.
  destruct (field_value_ok _ _ _ Hs) as (ws & -> & Hws).
  destruct (field_value_ok _ _ _ Hd) as (wd & -> & _). cbn [bind].
  destruct (is_none ws) eqn:Hn; cbn [negb andb]; [eauto|].
  destruct (is_none wd); cbn [negb]; [eauto|].
  destruct Hws as [Hws|Hws]; [discriminate|].
  destruct (py_format_f_ok 1 ws Hws Hn) as (s & ->). cbn [bind]. eauto.
Qed.

Lemma temperature_str_ok (kv : list (string * json)) :
  field_ok number_ok kv "temperature" = true ->
  match lookup "temperature" kv with
  | Some (JObj f) => absent_or_str (lookup "unitCode" f)
  | _ => true
  end = true ->
  exists s, temperature_str (JObj kv) = Ok s.
Proof.
  intros Hv Hu. unfold temperature_str.
  destruct (field_value_ok _ _ _ Hv) as (v & Hfv & Hok).
  unfold field_value in Hfv. cbn [py_get bind] in Hfv |- *.
  destruct (lookup "temperature" kv) as [[| | | | | |f]|]; try discriminate Hfv.
  - cbn [py_get bind] in Hfv |- *. injection Hfv as Hfv. rewrite Hfv.
    assert (Hunit : exists tu,
               py_split_last
                 match lookup "unitCode" f with
                 | Some u => u
                 | None => JStr ""
                 end ":"%char = Ok tu).
    { destruct (lookup "unitCode" f) as [[| | | |u| |]|]; try discriminate Hu;
        cbn [py_split_last]; eauto. }
    destruct Hunit as (tu & ->). cbn [bind].
    destruct (is_none v) eqn:Hn; cbn [negb andb]; [eauto|].
    destruct Hok as [Hok|Hok]; [discriminate|].
    destruct (py_format_f_ok 1 v Hok Hn) as (s & Hs).
    destruct (to_fahrenheit_ok v Hok Hn) as (q & Hq).
    destruct (String.eqb tu "degC").
    + rewrite Hq. cbn [bind num_format_f num_to_float]. rewrite Hs.
      cbn [bind]. eauto.
    + rewrite Hs. cbn [bind]. eauto.
  - eexists. reflexivity.
Qed.

Lemma cloud_layer_str_ok (repr_str : string -> string) (layer : json) :
  layer_ok layer = true -> exists s, cloud_layer_str repr_str layer = Ok s.
Proof.
  destruct layer as [| | | | | |f]; try discriminate. cbn [layer_ok].
  unfold cloud_layer_str. cbn [py_get bind].
  destruct (lookup "base" f) as [[| | | | | |b]|]; try discriminate; intros _;
    cbn [py_get bind]; eauto.
Qed.

Lemma mapM_cloud_layer_str_ok (repr_str : string -> string) (l : list json) :
  forallb layer_ok l = true -> exists parts, mapM (cloud_layer_str repr_str) l = Ok parts.
Proof.
  induction l as [|a l IH]; cbn [forallb mapM]; [eauto|].
  intros H. apply andb_true_iff in H. destruct H as [Ha Hl].
  destruct (cloud_layer_str_ok repr_str a Ha) as (s & ->).
  destruct (IH Hl) as (parts & ->). cbn [bind]. eauto.
Qed.

Lemma cloud_str_ok (repr_str : string -> string) (kv : list (string * json)) :
  match lookup "cloudLayers" kv with
  | None | Some JNull => true
  | Some (JList l) => forallb layer_ok l
  | Some _ => false
  end = true ->
  exists s, cloud_str repr_str (JObj kv) = Ok s.
Proof.
  intros H. unfold cloud_str. cbn [py_get bind].
  destruct (lookup "cloudLayers" kv) as [[| | | | |l|]|]; try discriminate H;
    cbn [py_truthy]; eauto.
  destruct l as [|a l]; [eauto|]. cbn [py_iter bind].
  destruct (mapM_cloud_layer_str_ok repr_str (a :: l) H) as (parts & ->).
  cbn [bind]. eauto.
Qed.

Lemma format_current_weather_total
  (repr_str : string -> string) (data : json) (kv : list (string * json)) :
  py_get data "properties" (JObj []) = Ok (JObj kv) ->
  well_formed_observation kv = true ->
  exists out, format_current_weather repr_str data = Ok out.
Proof.
  intros Hp Hwf. unfold well_formed_observation in Hwf.
  repeat (apply andb_true_iff in Hwf; destruct Hwf as [Hwf ?]).
  unfold format_current_weather. rewrite Hp. cbn [bind py_get].
  assert (Hst : exists st,
             py_split_last
               match lookup "station" kv with
               | Some v => v
               | None => JStr "Unknown"
               end "/"%char = Ok st).
  { destruct (lookup "station" kv) as [[| | | |s| |]|]; try discriminate Hwf;
      cbn [py_split_last]; eauto. }
  destruct Hst as (st & ->). cbn [bind].
  destruct (temperature_str_ok kv) as (t & ->); try assumption. cbn [bind].
  destruct (wind_str_ok repr_str kv) as (wi & ->); try assumption. cbn [bind].
  destruct (humidity_str_ok kv) as (hu & ->); try assumption. cbn [bind].
  destruct (dewpoint_str_ok kv) as (dw & ->); try assumption. cbn [bind].
  destruct (pressure_str_ok kv) as (pr & ->); try assumption. cbn [bind].
  destruct (visibility_str_ok kv) as (vi & ->); try assumption. cbn [bind].
  destruct (feels_like_ok kv) as (fl & ->); try assumption. cbn [bind].
  destruct (cloud_str_ok repr_str kv) as (cl & ->); try assumption. cbn [bind].
  destruct (precip_str_ok kv) as (pc & ->); try assumption. cbn [bind].
  eauto.
Qed.

(** X16: an observation whose properties have the documented shape is
    always rendered: with every measurement missing, null, a float or an
    integer of magnitude at most 10^300, no formatter raises (no overflow
    in the conversions either). *)
Theorem well_formed_observation_renders
  (repr_str : string -> string) (data : json) (kv : list (string * json)) :
  py_get data "properties" (JObj []) = Ok (JObj kv) ->
  well_formed_observation kv = true ->
  exists out, format_current_weather repr_str data = Ok out.
Proof. apply format_current_weather_total. Qed.

Lemma well_formed_observation_renders_witness :
  exists out, format_current_weather (fun s => s) sample_observation = Ok out.
Proof.
  refine (well_formed_observation_renders (fun s => s) sample_observation
            (match sample_properties with JObj kv => kv | _ => [] end) _ _).
  - reflexivity.
  - vm_compute. reflexivity.
Defined.

(** ** Wind, pressure and a whole run *)

Lemma degree_suffix_not_na (a : string) : a ++ "°" <> "N/A".
Proof.
  intros H.
  apply (f_equal (fun s => rev (list_ascii_of_string s))) in H.
  rewrite list_ascii_of_string_app, rev_app_distr in H.
  discriminate H.
Qed.

Lemma pressure_exact_range : all_from pressure_exact 0 (Z.to_nat 12001) = true.
Proof. vm_compute. reflexivity. Qed.

Section FieldProperties.

Variable repr_str : string -> string.

(** X17: the wind line shows "N/A" exactly when the speed or the
    direction has no value; a speed alone, or a direction alone, is never
    shown. *)
Theorem wind_str_not_available (properties speed direction : json) (s : string) :
  field_value properties "windSpeed" = Ok speed ->
  field_value properties "windDirection" = Ok direction ->
  wind_str repr_str properties = Ok s ->
  (s = "N/A" <-> is_none speed = true \/ is_none direction = true).
Proof.
  intros Hs Hd H. unfold wind_str in H. rewrite Hs, Hd in H. cbn [bind] in H.
  destruct (is_none speed); cbn [negb andb] in H.
  - injection H as <-. split; auto.
  - destruct (is_none direction); cbn [negb] in H.
    + injection H as <-. split; auto.
    + bind_inv H. injection H as <-. split.
      * intros Heq. exfalso.
        change (v ++ " km/h from " ++ py_str repr_str direction ++ "°" = "N/A")
          in Heq.
        rewrite <- !append_assoc in Heq. exact (degree_suffix_not_na _ Heq).
      * intros [Hc|Hc]; discriminate Hc.
Qed.

(** X18: a pressure that is a whole number of tenths of a millibar, from 0
    to 120000 Pa, is shown exactly: 10 k pascals give k/10 with its one
    decimal, followed by " mb". *)
Theorem pressure_str_tenths (properties : json) (k : Z) :
  field_value properties "barometricPressure" = Ok (JInt (10 * k)) ->
  0 <= k <= 12000 ->
  pressure_str properties = Ok (tenths_text k ++ " mb").
Proof.
  intros Hv Hk.
  pose proof (all_from_spec _ _ _ pressure_exact_range k ltac:(lia)) as He.
  unfold pressure_exact in He.
  unfold pressure_str. rewrite Hv. cbn [bind is_none negb as_num].
  destruct (num_truediv (NInt (10 * k)) (NInt 100)) as [q|e]; [|discriminate He].
  cbn [bind] in He |- *.
  destruct (num_format_f 1 q) as [sp|e]; [|discriminate He].
  apply String.eqb_eq in He. subst sp. reflexivity.
Qed.

End FieldProperties.

Lemma wind_str_not_available_witness :
  "18.5 km/h from 270°" = "N/A"
  <-> is_none (JFloat (Z_div 185 10)) = true \/ is_none (JInt 270) = true.
Proof.
  refine (wind_str_not_available (fun s => s) sample_properties
            (JFloat (Z_div 185 10)) (JInt 270) "18.5 km/h from 270°" _ _ _);
    vm_compute; reflexivity.
Defined.

Lemma pressure_str_tenths_witness :
  pressure_str
    (JObj [("barometricPressure", JObj [("value", JInt (10 * 10132))])])
  = Ok "1013.2 mb".
Proof.
  refine (pressure_str_tenths _ 10132 _ _).
  - reflexivity.
  - lia.
Defined.

Section WholeRun.

Variable str_upper : string -> string.
Variable repr_str : string -> string.
Variable net : nat -> string -> response.

(** X19: with a station code of 4 characters, a latest-observation answer
    that is a non-empty object with well-formed properties is rendered and
    printed: the run is the one request followed by the text on standard
    output, and the exit status is 0. *)
Theorem well_formed_observation_run
  (location : string) (data : json) (kv : list (string * json)) :
  py_len location = 4 ->
  net 0%nat (observation_url (new_client str_upper location)) = RespJson data ->
  py_truthy data = true ->
  py_get data "properties" (JObj []) = Ok (JObj kv) ->
  well_formed_observation kv = true ->
  exists text,
    format_current_weather repr_str data = Ok text
    /\ run str_upper repr_str net (Namespace location false)
       = (0, [EvGet (observation_url (new_client str_upper location))
                (headers (new_client str_upper location)) 10;
              EvStdout text]).
Proof.
  intros Hlen Hn Ht Hp Hwf.
  destruct (format_current_weather_total repr_str data kv Hp Hwf) as (text & Hr).
  exists text. split; [exact Hr|].
  unfold run. rewrite (main_valid_code str_upper repr_str net location false Hlen).
  unfold get_current_weather, try_except_request, io_bind, fetch_json, lift,
    print_stdout.
  cbn [requests_of flat_map List.length app]. rewrite Hn, Ht, Hr. reflexivity.
Qed.

End WholeRun.

Lemma well_formed_observation_run_witness :
  exists text,
    format_current_weather (fun s => s) sample_observation = Ok text
    /\ run (fun s => s) (fun s => s) observation_service (Namespace "KMPR" false)
       = (0, [EvGet "https://api.weather.gov/stations/KMPR/observations/latest"
                [("User-Agent", "(Weather CLI Tool, contact@example.com)");
                 ("Accept", "application/json")] 10;
              EvStdout text]).
Proof.
  refine (well_formed_observation_run (fun s => s) (fun s => s)
            observation_service "KMPR" sample_observation
            (match sample_properties with JObj kv => kv | _ => [] end)
            _ _ _ _ _);
    vm_compute; reflexivity.
Defined.

Section WholeForecastRun.

Variable str_upper : string -> string.
Variable repr_str : string -> string.
Variable net : nat -> string -> response.

(** X20: with a station code of 4 characters, a chain whose three requests
    succeed and a forecast document whose periods are a non-empty list of
    objects, the forecast is rendered and printed: the run is the three
    requests followed by the text on standard output, and the exit status
    is 0. *)
Theorem forecast_run_prints
  (location : string) (station_data lon lat : json) (rest : list json)
  (points_data properties forecast_url forecast : json) (ps : list json) :
  py_len location = 4 ->
  net 0%nat (station_url (new_client str_upper location)) = RespJson station_data ->
  station_coordinates station_data = Ok (JList (lon :: lat :: rest)) ->
  net 1%nat (points_url repr_str lat lon) = RespJson points_data ->
  py_get points_data "properties" (JObj []) = Ok properties ->
  py_get properties "forecast" JNull = Ok forecast_url ->
  py_truthy forecast_url = true ->
  net 2%nat (py_str repr_str forecast_url) = RespJson forecast ->
  forecast_periods forecast = Ok (JList ps) ->
  ps <> [] ->
  Forall (fun p => is_dict p = true) ps ->
  exists text,
    format_forecast repr_str forecast = Ok text
    /\ run str_upper repr_str net (Namespace location true)
       = (0, [EvGet (station_url (new_client str_upper location))
                (headers (new_client str_upper location)) 10;
              EvGet (points_url repr_str lat lon)
                (headers (new_client str_upper location)) 10;
              EvGet (py_str repr_str forecast_url)
                (headers (new_client str_upper location)) 10;
              EvStdout text]).
Proof.
  intros Hlen Hn0 Hc Hn1 Hp Hf Ht Hn2 Hps Hne Hd.
  destruct (mapM_period_block_defaults repr_str (firstn 14 ps)) as (blocks & Hb & _).
  { rewrite <- (firstn_skipn 14 ps) in Hd. now apply Forall_app in Hd. }
  assert (Hr : format_forecast repr_str forecast
               = Ok (strip (forecast_header ++ concat_all blocks))).
  { rewrite (format_forecast_list repr_str forecast ps Hps Hne).
    unfold rendered_periods. rewrite Hb. reflexivity. }
  assert (Htruthy : py_truthy forecast = true).
  { destruct forecast as [| | | | | |kv]; try discriminate Hps.
    destruct kv; [|reflexivity].
    cbn in Hps. injection Hps as <-. contradiction. }
  eexists. split; [exact Hr|].
  unfold run. rewrite (main_valid_code str_upper repr_str net location true Hlen).
  unfold io_bind at 1.
  rewrite (get_forecast_chain_ok repr_str net _ _ _ _ _ _ _ _ _
             Hn0 Hc Hn1 Hp Hf Ht Hn2).
  rewrite Htruthy. unfold io_bind, lift, print_stdout. rewrite Hr. reflexivity.
Qed.

End WholeForecastRun.

Lemma forecast_run_prints_witness :
  exists text,
    format_forecast (fun s => s) (sample_forecast sample_periods) = Ok text
    /\ run (fun s => s) (fun s => s) sample_service (Namespace "KMPR" true)
       = (0,
          [EvGet "https://api.weather.gov/stations/KMPR"
             [("User-Agent", "(Weather CLI Tool, contact@example.com)");
              ("Accept", "application/json")] 10;
           EvGet "https://api.weather.gov/points/36.58,-121.85"
             [("User-Agent", "(Weather CLI Tool, contact@example.com)");
              ("Accept", "application/json")] 10;
           EvGet "https://api.weather.gov/gridpoints/MTR/93,58/forecast"
             [("User-Agent", "(Weather CLI Tool, contact@example.com)");
              ("Accept", "application/json")] 10;
           EvStdout text]).
Proof.
  refine (forecast_run_prints (fun s => s) (fun s => s) sample_service "KMPR"
            _ (JFloat (Z_div (-12185) 100)) (JFloat (Z_div 3658 100)) []
            _ (JObj [("forecast",
                      JStr "https://api.weather.gov/gridpoints/MTR/93,58/forecast")])
            (JStr "https://api.weather.gov/gridpoints/MTR/93,58/forecast")
            (sample_forecast sample_periods) sample_periods
            _ _ _ _ _ _ _ _ _ _ _); try reflexivity.
  - discriminate.
  - repeat constructor.
Defined.
